(** * django-olympus: collectors, index naming and bulk-push accounting

    A shallow embedding of [olympus/base.py]: the collector registry, the
    index-name resolver, the record normaliser ([__collect]), the dry-run
    push ([fake_push]) and the live push ([push]) with its per-item
    classification of the outcomes streamed back by the bulk helper.

    Python dictionaries are finite maps from strings to values. What a run
    does to the outside world (requests sent to the search store, calls of
    the observer callback, debug lines) is recorded in a trace, and an
    exception is an explicit result. *)

From stdpp Require Import base strings gmap list pretty.
From Stdlib Require Import ZArith Lia Ascii.

Local Open Scope string_scope.
Local Open Scope list_scope.
Local Open Scope stdpp_scope.

(** * Definitions *)

(** ** Python values and the few builtins the module relies on *)

Module Py.

(** JSON-like values: what a document or a bulk response item holds. *)
#[warnings="-register-all"]
Inductive Value : Type :=
  | VNone
  | VBool (b : bool)
  | VInt (z : Z)
  | VStr (s : string)
  | VDict (d : gmap string Value).

(** Exceptions that can leave the functions of the module. *)
Inductive exn : Type :=
  | NotImplementedError
  | AttributeError
  | StoreError (msg : string).

Inductive result (A : Type) : Type :=
  | Ok (a : A)
  | Raise (e : exn).
Arguments Ok {A} a.
Arguments Raise {A} e.

(** [d.get(key, default)] on a dictionary. *)
Definition dict_get (d : gmap string Value) (key : string) (dflt : Value) : Value :=
  match d !! key with
  | Some v => v
  | None => dflt
  end.

(** [v.get(key)] on an arbitrary value: only dictionaries have [get], and
    the default of the one-argument form is [None]. *)
Definition value_get (v : Value) (key : string) : result Value :=
  match v with
  | VDict d => Ok (dict_get d key VNone)
  | _ => Raise AttributeError
  end.

(** [v == n] for an integer literal [n] other than 0 and 1: among the
    modelled values only the same integer compares equal to it. *)
Definition eq_int (v : Value) (n : Z) : bool :=
  match v with
  | VInt z => (z =? n)%Z
  | _ => false
  end.

(** [s.split(sep)] for a one-character separator. *)
Fixpoint split (sep : ascii) (s : string) : list string :=
  match s with
  | EmptyString => [EmptyString]
  | String c s' =>
      if Ascii.eqb c sep then EmptyString :: split sep s'
      else match split sep s' with
           | h :: t => String c h :: t
           | [] => [String c EmptyString]
           end
  end.

(** [l[0]]; [split] never returns the empty list, so the index is in range. *)
Definition first (l : list string) : string :=
  match l with
  | h :: _ => h
  | [] => EmptyString
  end.

(** Truth value of an [Optional[str]]: [None] and the empty string are false. *)
Definition truthy (o : option string) : bool :=
  match o with
  | Some (String _ _) => true
  | _ => false
  end.

(** [a or b] where [a] is an [Optional[str]] and [b] a string. *)
Definition str_or (a : option string) (b : string) : string :=
  match a with
  | Some (String c s) => String c s
  | _ => b
  end.

(** No character of [s] is a dot. *)
Fixpoint dotless (s : string) : bool :=
  match s with
  | EmptyString => true
  | String c s' => negb (Ascii.eqb c ".") && dotless s'
  end.

End Py.
Import Py.

(** A document produced by a collector, and a response item of the bulk
    helper, are both [dict[str, Any]]. *)
Abbreviation Record := (gmap string Value).
Abbreviation Item := (gmap string Value).

(** What the module takes from the Python runtime: timestamps with
    [strftime], and [str.lower]. *)
Class PyRuntime : Type := {
  Timestamp : Type;
  strftime : Timestamp -> string -> string;
  lower : string -> string;
}.

(** ** Collector classes *)

(** A subclass of [OlympusCollector]: its module path ([__module__]) and
    class name ([__name__]), the class attributes, and the records its
    [collect] yields, each as it stands when yielded ([None] when [collect]
    is not overridden: the base method raises). *)
Record CollectorClass : Type := {
  cls_module : string;
  cls_name : string;
  index_name : option string;
  index_date_pattern : option string;
  chunk_size : Z;
  alias_suffix : option string;
  collect : option (list Record);
}.

(** [cls.__module__.split('.')[0]] *)
Definition namespace (cls : CollectorClass) : string :=
  first (split "."%char (cls_module cls)).

(** [name]: the first component of the module path, a dot, the class name. *)
Definition name (cls : CollectorClass) : string :=
  namespace cls +:+ "." +:+ cls_name cls.

(** ** The registry *)

Definition Registry : Type := list (string * string * CollectorClass).

(** The module-level list before any class is defined. *)
Definition _collectors : Registry := [].

(** [__init_subclass__]: run once for each class definition. *)
Definition __init_subclass__ (cls : CollectorClass) (reg : Registry) : Registry :=
  reg ++ [(namespace cls, name cls, cls)].

Definition collectors (reg : Registry) : Registry := reg.

(** Defining the classes [cs] one after the other. *)
Definition define_all (cs : list CollectorClass) (reg : Registry) : Registry :=
  fold_left (fun r c => __init_subclass__ c r) cs reg.

(** ** Effects *)

(** What a run does to the outside world, in the order it does it: requests
    to the store, calls of the observer callback [stats_cb], debug lines.
    The observer is taken to return normally and to leave the item as it
    is. *)
Inductive Effect : Type :=
  | EsCreateIndex (index : string)
  | EsDeleteAlias (index alias : string)
  | EsPutAlias (index alias : string)
  | EsBulk (batch : list Record)
  | StatsCb (ok : bool) (item : Item)
  | LogDebug (item : Record).

Definition is_store_op (e : Effect) : bool :=
  match e with
  | EsCreateIndex _ | EsDeleteAlias _ _ | EsPutAlias _ _ | EsBulk _ => true
  | StatsCb _ _ | LogDebug _ => false
  end.

(** The arguments of the calls of the observer found in a trace. *)
Definition cb_calls (t : list Effect) : list (bool * Item) :=
  omap (fun e => match e with StatsCb ok item => Some (ok, item) | _ => None end) t.

(** The batches of the bulk requests found in a trace. *)
Definition bulk_batches (t : list Effect) : list (list Record) :=
  omap (fun e => match e with EsBulk b => Some b | _ => None end) t.

(** A computation: the effects it performed, and its value or the
    exception that ended it. *)
Definition M (A : Type) : Type := list Effect * result A.

Definition ret {A} (a : A) : M A := ([], Ok a).
Definition raise {A} (e : exn) : M A := ([], Raise e).
Definition emit (e : Effect) : M unit := ([e], Ok tt).
Definition lift {A} (r : result A) : M A := ([], r).

Definition bind {A B} (k : A -> M B) (m : M A) : M B :=
  match m with
  | (t, Raise e) => (t, Raise e)
  | (t, Ok a) => let (t', r) := k a in (t ++ t', r)
  end.

(** [x ← m; k] runs [m], then [k] unless [m] raised. *)
#[global] Instance M_ret : MRet M := @ret.
#[global] Instance M_bind : MBind M := @bind.

(** [m] after the effects [t0]. *)
Definition shift_trace {A} (t0 : list Effect) (m : M A) : M A := (t0 ++ m.1, m.2).

(** [for x in xs: st = body(st, x)] *)
Fixpoint for_each {A S} (body : S -> A -> M S) (xs : list A) (st : S) : M S :=
  match xs with
  | [] => ret st
  | x :: xs' => st' ← body st x; for_each body xs' st'
  end.

(** ** The bulk helper *)

(** What the generator returned by [helpers.streaming_bulk] does as [push]
    iterates it: it sends a batch to the store, or it yields the outcome
    [(ok, item)] of one action. *)
Inductive BulkEvent : Type :=
  | Submit (batch : list Record)
  | Yield (ok : bool) (item : Item).

(** The elasticsearch client library is not part of the module: the client
    handle and [streaming_bulk] (called with [yield_ok=True] and
    [raise_on_error=False]) are parameters. The helper gives the events of
    the iteration and the exception that ends it, if one does. *)
Class BulkHelper : Type := {
  EsClient : Type;
  streaming_bulk : EsClient -> list Record -> Z -> list BulkEvent * option exn;
}.

(** The outcomes yielded by a stream of events. *)
Definition outcomes (evs : list BulkEvent) : list (bool * Item) :=
  omap (fun ev => match ev with Yield ok item => Some (ok, item) | Submit _ => None end) evs.

(** The batches sent by a stream of events. *)
Definition submitted (evs : list BulkEvent) : list (list Record) :=
  omap (fun ev => match ev with Submit b => Some b | Yield _ _ => None end) evs.

(** ** Collector instances and their methods *)

Section Collector.
Context `{PyRuntime} `{BulkHelper}.

(** An instance as [__init__] leaves it. *)
Record OlympusCollector : Type := {
  cls : CollectorClass;
  es : EsClient;
  timestamp : Timestamp;
}.

(** [__init__] with both arguments optional: [default_es] is the client
    built from the settings, [now] the clock at the call. *)
Definition __init__ (c : CollectorClass) (default_es : EsClient) (now : Timestamp)
    (es_arg : option EsClient) (timestamp_arg : option Timestamp) : OlympusCollector :=
  {| cls := c;
     es := match es_arg with Some e => e | None => default_es end;
     timestamp := match timestamp_arg with Some t => t | None => now end |}.

(** The same collector constructed with another timestamp. *)
Definition at_time (self : OlympusCollector) (ts : Timestamp) : OlympusCollector :=
  {| cls := cls self; es := es self; timestamp := ts |}.

Definition __get_raw_index_name (self : OlympusCollector) : string :=
  str_or (index_name (cls self)) (lower (name (cls self))).

Definition get_index_name (self : OlympusCollector) : string :=
  let index_name := __get_raw_index_name self in
  match index_date_pattern (cls self) with
  | None => index_name
  | Some pattern => index_name +:+ "-" +:+ strftime (timestamp self) pattern
  end.

(** The store requests of [create_index] are taken to return normally. *)
Definition create_index (self : OlympusCollector) : M unit :=
  emit (EsCreateIndex (get_index_name self));;
  if truthy (index_date_pattern (cls self)) && truthy (alias_suffix (cls self)) then
    let alias := __get_raw_index_name self +:+ default "" (alias_suffix (cls self)) in
    emit (EsDeleteAlias "_all" alias);;
    emit (EsPutAlias (get_index_name self) alias)
  else ret tt.

(** The body of the loop of [__collect]: the two defaults. *)
Definition add_defaults (self : OlympusCollector) (_i : Record) : Record :=
  let _i := match _i !! "_type" with
            | None => <["_type" := VStr "status"]> _i
            | Some _ => _i
            end in
  match _i !! "_index" with
  | None => <["_index" := VStr (get_index_name self)]> _i
  | Some _ => _i
  end.

(** [__collect]: the records of [collect], each with its defaults. *)
Definition __collect (self : OlympusCollector) : result (list Record) :=
  match collect (cls self) with
  | None => Raise NotImplementedError
  | Some records => Ok (map (add_defaults self) records)
  end.

(** [__collect] on shared dictionaries: [heap] gives the contents of each
    dictionary object, [collect] yields the objects [refs], the loop body
    updates the object in place, and the consumer reads it when it is
    yielded. The result is the heap at the end and what the consumer read. *)
Fixpoint __collect_in_place (self : OlympusCollector) (heap : gmap nat Record)
    (refs : list nat) : gmap nat Record * list Record :=
  match refs with
  | [] => (heap, [])
  | ref :: rest =>
      let heap' := alter (add_defaults self) ref heap in
      let (heap'', yielded) := __collect_in_place self heap' rest in
      (heap'', default ∅ (heap' !! ref) :: yielded)
  end.

(** One iteration of the loop of [fake_push]. *)
Definition fake_push_body (stats_cb : bool) (success : nat) (item : Record) : M nat :=
  let success := S success in
  (if stats_cb then emit (StatsCb true item) else ret tt);;
  emit (LogDebug item);;
  ret success.

(** [stats_cb] tells whether the caller supplied an observer. *)
Definition fake_push (self : OlympusCollector) (stats_cb : bool) : M (nat * list Item) :=
  items ← lift (__collect self);
  success ← for_each (fake_push_body stats_cb) items 0;
  ret (success, []).

(** [item.get("delete", {}).get('status')] *)
Definition item_delete_status (item : Item) : result Value :=
  value_get (dict_get item "delete" (VDict ∅)) "status".

(** [item.get("update", {}).get('update')] *)
Definition item_update_status (item : Item) : result Value :=
  value_get (dict_get item "update" (VDict ∅)) "update".

(** One iteration of the loop of [push]: the state is [(success, fails)].
    The helper sends a batch between two iterations, when [push] asks it
    for the next outcome. *)
Definition push_body (stats_cb : bool) (st : nat * list Item) (ev : BulkEvent)
    : M (nat * list Item) :=
  let '(success, fails) := st in
  match ev with
  | Submit batch => emit (EsBulk batch);; ret (success, fails)
  | Yield ok item =>
      delete_status ← lift (item_delete_status item);
      update_status ← lift (item_update_status item);
      let ok :=
        if negb ok && (eq_int delete_status 404 || eq_int update_status 404)
        then true else ok in
      (if stats_cb then emit (StatsCb ok item) else ret tt);;
      if negb ok then ret (success, fails ++ [item])
      else ret (S success, fails)
  end.

Definition push (self : OlympusCollector) (stats_cb : bool) : M (nat * list Item) :=
  create_index self;;
  actions ← lift (__collect self);
  let '(events, final) := streaming_bulk (es self) actions (chunk_size (cls self)) in
  st ← for_each (push_body stats_cb) events (0, []);
  match final with
  | Some e => raise e
  | None => ret st
  end.

(** The effects of [create_index], written out. *)
Definition create_index_effects (self : OlympusCollector) : list Effect :=
  EsCreateIndex (get_index_name self) ::
  if truthy (index_date_pattern (cls self)) && truthy (alias_suffix (cls self)) then
    [EsDeleteAlias "_all"
       (__get_raw_index_name self +:+ default "" (alias_suffix (cls self)));
     EsPutAlias (get_index_name self)
       (__get_raw_index_name self +:+ default "" (alias_suffix (cls self)))]
  else [].

(** The effects of one iteration of the dry run. *)
Definition fake_push_effects (stats_cb : bool) (item : Record) : list Effect :=
  (if stats_cb then [StatsCb true item] else []) ++ [LogDebug item].

End Collector.

(** ** Notions the statements about the loop of [push] use *)

(** The flag [push] ends up with for an outcome [(ok, item)], or the
    exception raised while reading the two statuses. *)
Definition classify (ok : bool) (item : Item) : result bool :=
  match item_delete_status item with
  | Raise e => Raise e
  | Ok delete_status =>
      match item_update_status item with
      | Raise e => Raise e
      | Ok update_status =>
          Ok (if negb ok && (eq_int delete_status 404 || eq_int update_status 404)
              then true else ok)
      end
  end.

(** The state after an outcome whose flag ended up as [eff]. *)
Definition tally (eff : bool) (item : Item) (st : nat * list Item) : nat * list Item :=
  if eff then (S st.1, st.2) else (st.1, st.2 ++ [item]).

(** Moving the start of the loop from [(0, [])] to [st0]. *)
Definition shift (st0 : nat * list Item) (m : M (nat * list Item)) : M (nat * list Item) :=
  (m.1, match m.2 with
        | Ok st => Ok (st0.1 + st.1, st0.2 ++ st.2)
        | Raise e => Raise e
        end).

(** [z] pairs the item of every outcome with the flag [push] gave it. *)
Definition judged (z outs : list (bool * Item)) : Prop :=
  Forall2 (fun e o => e.2 = o.2 ∧ classify o.1 o.2 = Ok e.1) z outs.

(** The two statuses of [item] can be read: what it holds under ["delete"]
    and under ["update"], if anything, is a dictionary. *)
Definition readable (item : Item) : Prop :=
  (∀ v, item !! "delete" = Some v → ∃ d, v = VDict d)
  ∧ (∀ v, item !! "update" = Some v → ∃ d, v = VDict d).

(** ** A bulk helper that batches by count *)

(** Modelled from the spec: the store behind the client, as the outcomes
    it gives, one per action, for one batch. *)
Definition Store : Type := list Record -> list (bool * Item).

(** Modelled from the spec: the grouping done inside
    [helpers.streaming_bulk], which is not in this repository. Batches of
    [chunk_size] actions, in the order of the stream, the last one with what
    is left; [cur] is the batch being filled. *)
Fixpoint chunk_actions (chunk_size : Z) (cur actions : list Record) : list (list Record) :=
  match actions with
  | [] => match cur with [] => [] | _ => [cur] end
  | a :: rest =>
      match cur with
      | [] => chunk_actions chunk_size [a] rest
      | _ =>
          if (Z.of_nat (length cur) =? chunk_size)%Z
          then cur :: chunk_actions chunk_size [a] rest
          else chunk_actions chunk_size (cur ++ [a]) rest
      end
  end.

(** Modelled from the spec: [helpers.streaming_bulk] is the elasticsearch
    client library's, its code is not in this repository. The actions are
    grouped into batches of at most [chunk_size], each batch is submitted as
    one request, and the outcomes of a batch are streamed back one per
    action before the next batch is sent. No request fails as a whole. *)
Definition chunked_streaming_bulk (store : Store) (actions : list Record) (chunk_size : Z)
    : list BulkEvent * option exn :=
  (flat_map (fun batch => Submit batch :: map (fun o => Yield o.1 o.2) (store batch))
            (chunk_actions chunk_size [] actions),
   None).

Definition chunked_helper : BulkHelper :=
  {| EsClient := Store; streaming_bulk := chunked_streaming_bulk |}.

(** The store accepts an action: the outcome is flagged ok and the item has
    the shape [{op: {...}}] of a bulk response. *)
Definition accepted (o : bool * Item) : Prop :=
  o.1 = true ∧ ∃ op d, o.2 = {[ op := VDict d ]}.

(** The store accepts every action: one accepted outcome per action. *)
Definition accepts_all (store : Store) : Prop :=
  ∀ batch, length (store batch) = length batch ∧ Forall accepted (store batch).

(** ** A runtime, a store and collectors to evaluate the definitions on *)

Module Sample.

(** [str.lower] on ASCII letters. *)
Definition ascii_lower (c : ascii) : ascii :=
  let n := nat_of_ascii c in
  if ((65 <=? n) && (n <=? 90))%nat then ascii_of_nat (n + 32) else c.

Fixpoint str_lower (s : string) : string :=
  match s with
  | EmptyString => EmptyString
  | String c s' => String (ascii_lower c) (str_lower s')
  end.

(** Calendar dates, and the directives [%Y], [%m] and [%d] of [strftime]. *)
Record Date : Type := { year : nat; month : nat; day : nat }.

Definition two_digits (n : nat) : string :=
  if (n <? 10)%nat then "0" +:+ pretty n else pretty n.

Fixpoint format (d : Date) (pattern : string) : string :=
  match pattern with
  | String "%" (String "Y" rest) => pretty (year d) +:+ format d rest
  | String "%" (String "m" rest) => two_digits (month d) +:+ format d rest
  | String "%" (String "d" rest) => two_digits (day d) +:+ format d rest
  | String c rest => String c (format d rest)
  | EmptyString => EmptyString
  end.

Definition runtime : PyRuntime :=
  {| Timestamp := Date; strftime := format; lower := str_lower |}.

#[local] Existing Instance runtime.
#[local] Existing Instance chunked_helper.

(** Response items: a document created, a delete and an update of a
    document that does not exist, an index operation that conflicts. *)
Definition created : Item :=
  {[ "index" := VDict {[ "_id" := VStr "1"; "status" := VInt 201 ]} ]}.
Definition delete_missing : Item :=
  {[ "delete" := VDict {[ "_id" := VStr "7"; "status" := VInt 404 ]} ]}.
Definition update_missing : Item :=
  {[ "update" := VDict {[ "_id" := VStr "8"; "status" := VInt 404 ]} ]}.
Definition conflict : Item :=
  {[ "index" := VDict {[ "_id" := VStr "9"; "status" := VInt 409 ]} ]}.

(** A store that accepts whatever it is sent. *)
Definition accepting_store : Store := map (fun _ => (true, created)).

(** A store in which the documents to delete and to update are missing, and
    an explicit index operation conflicts. *)
Definition reply (action : Record) : bool * Item :=
  match action !! "_op_type" with
  | Some (VStr "delete") => (false, delete_missing)
  | Some (VStr "update") => (false, update_missing)
  | Some (VStr "index") => (false, conflict)
  | _ => (true, created)
  end.

Definition sparse_store : Store := map reply.

(** Actions. *)
Definition doc (n : Z) : Record := {[ "id" := VInt n ]}.
Definition remove : Record := {[ "_op_type" := VStr "delete"; "_id" := VStr "7" ]}.
Definition patch : Record :=
  {[ "_op_type" := VStr "update"; "_id" := VStr "8"; "doc" := VDict {[ "seen" := VBool true ]} ]}.
Definition put : Record :=
  {[ "_op_type" := VStr "index"; "_id" := VStr "9"; "_index" := VStr "archive" ]}.

(** The class [Users] of the module [app.collectors], one index a month. *)
Definition Users (records : list Record) : CollectorClass :=
  {| cls_module := "app.collectors";
     cls_name := "Users";
     index_name := None;
     index_date_pattern := Some "%Y.%m";
     chunk_size := 2;
     alias_suffix := Some "-latest";
     collect := Some records |}.

(** A class [Users] of another module of the same package. *)
Definition LegacyUsers : CollectorClass :=
  {| cls_module := "app.legacy.collectors";
     cls_name := "Users";
     index_name := None;
     index_date_pattern := None;
     chunk_size := 500;
     alias_suffix := Some "-latest";
     collect := Some [] |}.

(** A class whose [index_name] is the empty string. *)
Definition Unnamed : CollectorClass :=
  {| cls_module := "app.collectors";
     cls_name := "Users";
     index_name := Some "";
     index_date_pattern := None;
     chunk_size := 500;
     alias_suffix := Some "-latest";
     collect := Some [] |}.

(** A class that sends one action of each kind in a single batch. *)
Definition Mixed : CollectorClass :=
  {| cls_module := "app.collectors";
     cls_name := "Mixed";
     index_name := Some "mixed";
     index_date_pattern := None;
     chunk_size := 500;
     alias_suffix := Some "-latest";
     collect := Some [doc 1; remove; patch; put] |}.

(** A class that only updates. *)
Definition Patcher : CollectorClass :=
  {| cls_module := "app.collectors";
     cls_name := "Patcher";
     index_name := Some "users";
     index_date_pattern := None;
     chunk_size := 500;
     alias_suffix := Some "-latest";
     collect := Some [patch] |}.

Definition march : Date := {| year := 2024; month := 3; day := 9 |}.
Definition late_march : Date := {| year := 2024; month := 3; day := 30 |}.
Definition april : Date := {| year := 2024; month := 4; day := 1 |}.

Definition instance (c : CollectorClass) (store : Store) (ts : Date) : OlympusCollector :=
  {| cls := c; es := store; timestamp := ts |}.

Definition users5 : OlympusCollector :=
  instance (Users [doc 1; doc 2; doc 3; doc 4; doc 5]) accepting_store march.
Definition legacy : OlympusCollector := instance LegacyUsers accepting_store march.
Definition unnamed : OlympusCollector := instance Unnamed accepting_store march.
Definition mixed : OlympusCollector := instance Mixed sparse_store march.
Definition patcher : OlympusCollector := instance Patcher sparse_store march.

(** What the collector [mixed] sends, and what the helper does with it. *)
Definition mixed_actions : list Record :=
  map (add_defaults mixed) [doc 1; remove; patch; put].

Definition mixed_events : list BulkEvent :=
  [Submit mixed_actions; Yield true created; Yield false delete_missing;
   Yield false update_missing; Yield false conflict].

End Sample.

(** ** The rest of the module *)

(** Sequencing of computations that can only raise. *)
#[global] Instance result_ret : MRet result := @Ok.
#[global] Instance result_bind : MBind result :=
  fun A B k r => match r with Ok a => k a | Raise e => Raise e end.

(** [settings.NAME]: a setting that is not defined raises. *)
Definition setting (settings : gmap string Value) (name : string) : result Value :=
  match settings !! name with
  | Some v => Ok v
  | None => Raise AttributeError
  end.

Module ElasticSearchClient.

(** [ElasticSearchClient.__init__]: the hosts and the keyword arguments it
    hands to the constructor of the client library. [hosts] is [None] when
    the caller gives no hosts. *)
Definition __init__ (settings : gmap string Value) (hosts : option (list Value))
    (kwargs : gmap string Value) : result (list Value * gmap string Value) :=
  hosts ← match hosts with
          | None => url ← setting settings "OLYMPUS_ELASTICSEARCH_URL"; mret [url]
          | Some hosts => mret hosts
          end;
  verify_certs ← setting settings "OLYMPUS_ELASTICSEARCH_VERIFY_CERTS";
  let kwargs := <["verify_certs" := dict_get kwargs "verify_certs" verify_certs]> kwargs in
  let kwargs := match kwargs !! "timeout" with
                | None => <["timeout" := VInt 30]> kwargs
                | Some _ => kwargs
                end in
  mret (hosts, kwargs).

End ElasticSearchClient.

(** [estimated_count] of the base class. *)
Definition estimated_count `{PyRuntime} `{BulkHelper} (self : OlympusCollector) : option Z :=
  None.



(** One of the two statuses of [item] cannot be read: what it holds under
    ["delete"] or under ["update"] is not a dictionary. *)
Definition unreadable (item : Item) : Prop :=
  (∃ v, item !! "delete" = Some v ∧ ∀ d, v ≠ VDict d)
  ∨ (∃ v, item !! "update" = Some v ∧ ∀ d, v ≠ VDict d).

(** More cases to evaluate the definitions on. *)
Module Cases.

#[local] Existing Instance Sample.runtime.

(** A class that does not override [collect]. *)
Definition Abstract : CollectorClass :=
  {| cls_module := "app.collectors";
     cls_name := "Abstract";
     index_name := None;
     index_date_pattern := Some "%Y";
     chunk_size := 500;
     alias_suffix := Some "-latest";
     collect := None |}.

(** A class whose date pattern is the empty string. *)
Definition Blank : CollectorClass :=
  {| cls_module := "app.collectors";
     cls_name := "Blank";
     index_name := Some "blank";
     index_date_pattern := Some "";
     chunk_size := 500;
     alias_suffix := Some "-latest";
     collect := Some [] |}.

Definition abstract : @OlympusCollector Sample.runtime chunked_helper :=
  Sample.instance Abstract Sample.accepting_store Sample.march.

Definition blank : @OlympusCollector Sample.runtime chunked_helper :=
  Sample.instance Blank Sample.accepting_store Sample.march.

(** A helper that loses the connection once the outcomes of the batches
    have been yielded. *)
Definition dropping_helper : BulkHelper :=
  {| EsClient := Store;
     streaming_bulk := fun store actions chunk_size =>
       ((chunked_streaming_bulk store actions chunk_size).1,
        Some (StoreError "connection lost")) |}.

Definition dropped : @OlympusCollector Sample.runtime dropping_helper :=
  {| cls := Sample.Mixed;
     es := (Sample.sparse_store : @EsClient dropping_helper);
     timestamp := Sample.march |}.

(** A store whose second reply holds a string where the result of the
    operation should be. *)
Definition garbled_item : Item := {[ "delete" := VStr "gone" ]}.

Definition garbling_store : Store :=
  fun batch => match batch with
               | a :: _ :: rest => (true, Sample.created) :: (true, garbled_item)
                                   :: map Sample.reply rest
               | _ => map Sample.reply batch
               end.

Definition garbled : @OlympusCollector Sample.runtime chunked_helper :=
  Sample.instance Sample.Mixed garbling_store Sample.march.

(** Two dictionary objects, the first yielded twice. *)
Definition heap : gmap nat Record :=
  {[ 0%nat := Sample.doc 1; 1%nat := Sample.put ]}.

(** Settings with both entries, and hosts and options of a caller. *)
Definition settings : gmap string Value :=
  {[ "OLYMPUS_ELASTICSEARCH_URL" := VStr "http://localhost:9200";
     "OLYMPUS_ELASTICSEARCH_VERIFY_CERTS" := VBool true ]}.

Definition no_verify_setting : gmap string Value :=
  {[ "OLYMPUS_ELASTICSEARCH_URL" := VStr "http://localhost:9200" ]}.

End Cases.

(** * Properties *)

(** ** Strings *)

Lemma split_not_nil sep s : split sep s ≠ [].
Proof.
  destruct s as [|c s]; simpl; [done|].
  destruct (Ascii.eqb c sep); [done|].
  by destruct (split sep s).
Qed.

Lemma first_split_dotted pkg rest :
  dotless pkg = true → first (split "." (pkg +:+ "." +:+ rest)) = pkg.
Proof.
  induction pkg as [|c pkg IH]; simpl; intros Hd; [done|].
  apply andb_true_iff in Hd as [Hc Hd].
  apply negb_true_iff in Hc. rewrite Hc.
  specialize (IH Hd).
  destruct (split "." (pkg +:+ "." +:+ rest)) as [|h t] eqn:E.
  - by apply split_not_nil in E.
  - simpl in *. by rewrite IH.
Qed.

Lemma string_app_inj_l (p a b : string) : p +:+ a = p +:+ b → a = b.
Proof. induction p as [|c p IH]; simpl; intros Heq; [done|]. injection Heq as Heq. auto. Qed.

(** ** The registry *)

Lemma define_all_app cs reg :
  define_all cs reg = reg ++ map (fun c => (namespace c, name c, c)) cs.
Proof.
  revert reg. induction cs as [|c cs IH]; intros reg; simpl.
  - by rewrite app_nil_r.
  - unfold define_all in *. simpl. rewrite IH. unfold __init_subclass__.
    by rewrite <- app_assoc.
Qed.

(** C8. Registering [A] then [B] lists both entries, as
    (namespace, qualified name, class) tuples, in that order after what was
    registered before; the listing is not empty once a class has been
    registered; whatever is registered afterwards, the earlier listing stays
    as the beginning of the later one: no entry is removed or moved. *)
Theorem registry_append_only (reg : Registry) (A B : CollectorClass) (cs : list CollectorClass) :
  collectors (__init_subclass__ B (__init_subclass__ A reg))
    = collectors reg ++ [(namespace A, name A, A); (namespace B, name B, B)]
  ∧ collectors (__init_subclass__ B (__init_subclass__ A _collectors))
    = [(namespace A, name A, A); (namespace B, name B, B)]
  ∧ collectors (define_all (A :: cs) reg) ≠ []
  ∧ collectors reg `prefix_of` collectors (define_all cs reg).
Proof.
  unfold collectors. repeat split.
  - unfold __init_subclass__. by rewrite <- app_assoc.
  - rewrite define_all_app. simpl. intros Hnil.
    apply app_eq_nil in Hnil as [_ Hnil]. discriminate.
  - rewrite define_all_app. by eexists.
Qed.

(** ** Qualified names *)

(** C10. The qualified name is the first dotted component of the module
    path, a dot and the class name, so it depends on nothing else: two
    classes of the same name in submodules [pkg.sub1] and [pkg.sub2] of one
    package get the same qualified name, the same registry identity, and,
    without an [index_name] of their own, the same raw index name. *)
Theorem name_uses_first_component `{PyRuntime} `{BulkHelper}
    (pkg sub1 sub2 : string) (self1 self2 : OlympusCollector) (reg : Registry) :
  dotless pkg = true →
  cls_module (cls self1) = pkg +:+ "." +:+ sub1 →
  cls_module (cls self2) = pkg +:+ "." +:+ sub2 →
  cls_name (cls self1) = cls_name (cls self2) →
  name (cls self1) = first (split "." (cls_module (cls self1))) +:+ "." +:+ cls_name (cls self1)
  ∧ name (cls self1) = pkg +:+ "." +:+ cls_name (cls self1)
  ∧ name (cls self1) = name (cls self2)
  ∧ __init_subclass__ (cls self1) reg
      = reg ++ [(pkg, pkg +:+ "." +:+ cls_name (cls self1), cls self1)]
  ∧ __init_subclass__ (cls self2) reg
      = reg ++ [(pkg, pkg +:+ "." +:+ cls_name (cls self1), cls self2)]
  ∧ (truthy (index_name (cls self1)) = false →
     truthy (index_name (cls self2)) = false →
     __get_raw_index_name self1 = __get_raw_index_name self2
     ∧ __get_raw_index_name self1 = lower (pkg +:+ "." +:+ cls_name (cls self1))).
Proof.
  intros Hpkg Hm1 Hm2 Hn.
  assert (Hns1 : namespace (cls self1) = pkg).
  { unfold namespace. rewrite Hm1. by apply first_split_dotted. }
  assert (Hns2 : namespace (cls self2) = pkg).
  { unfold namespace. rewrite Hm2. by apply first_split_dotted. }
  assert (Hname1 : name (cls self1) = pkg +:+ "." +:+ cls_name (cls self1)).
  { unfold name. by rewrite Hns1. }
  assert (Hname2 : name (cls self2) = pkg +:+ "." +:+ cls_name (cls self1)).
  { unfold name. by rewrite Hns2, Hn. }
  repeat split; try done.
  - congruence.
  - unfold __init_subclass__. by rewrite Hns1, Hname1.
  - unfold __init_subclass__. by rewrite Hns2, Hname2.
  - unfold __get_raw_index_name.
    destruct (index_name (cls self1)) as [[|??]|], (index_name (cls self2)) as [[|??]|];
      simpl in *; congruence.
  - unfold __get_raw_index_name. rewrite Hname1.
    destruct (index_name (cls self1)) as [[|??]|]; simpl in *; congruence.
Qed.

(** [app.collectors.Users] and [app.legacy.collectors.Users] are both
    registered as [app.Users] and both write to [app.users]. *)
Lemma name_uses_first_component_witness :
  name (cls Sample.users5) = "app.Users"
  ∧ name (cls Sample.legacy) = "app.Users"
  ∧ @__get_raw_index_name Sample.runtime chunked_helper Sample.users5 = "app.users"
  ∧ @__get_raw_index_name Sample.runtime chunked_helper Sample.legacy = "app.users".
Proof.
  destruct (@name_uses_first_component Sample.runtime chunked_helper
              "app" "collectors" "legacy.collectors" Sample.users5 Sample.legacy []
              eq_refl eq_refl eq_refl eq_refl)
    as (_ & Hname & Hsame & _ & _ & Hraw).
  destruct (Hraw eq_refl eq_refl) as [Hraw_same Hraw1].
  split; [exact Hname|].
  split; [rewrite <- Hsame; exact Hname|].
  split; [exact Hraw1|].
  rewrite <- Hraw_same. exact Hraw1.
Defined.

(** ** Index names *)

Section IndexName.
Context `{PyRuntime} `{BulkHelper}.

Lemma raw_index_name_at_time (self : OlympusCollector) ts :
  __get_raw_index_name (at_time self ts) = __get_raw_index_name self.
Proof. reflexivity. Qed.

Lemma get_index_name_no_pattern (self : OlympusCollector) :
  index_date_pattern (cls self) = None →
  get_index_name self = __get_raw_index_name self.
Proof. unfold get_index_name. by intros ->. Qed.

Lemma get_index_name_pattern (self : OlympusCollector) P :
  index_date_pattern (cls self) = Some P →
  get_index_name self = __get_raw_index_name self +:+ "-" +:+ strftime (timestamp self) P.
Proof. unfold get_index_name. by intros ->. Qed.

End IndexName.

(** C5, as the claim states it, fails on a class whose [index_name] is set
    to the empty string: the raw name is then not that override but the
    lowercased qualified name. *)
Lemma raw_index_name_empty_override :
  index_name (cls Sample.unnamed) = Some ""
  ∧ @__get_raw_index_name Sample.runtime chunked_helper Sample.unnamed = "app.users"
  ∧ @__get_raw_index_name Sample.runtime chunked_helper Sample.unnamed ≠ "".
Proof. split; [reflexivity|]. split; [reflexivity|discriminate]. Qed.

(** C5 (as amended). The index name depends on the class attributes and
    the timestamp only. The raw name is [index_name] when that is set to a
    non-empty string, and the lowercased qualified name when it is unset or
    empty. Without a date pattern the index name is the raw name at every
    timestamp; with a pattern [P] it is the raw name, a dash and the
    timestamp formatted under [P], so that two timestamps get the same
    index name exactly when they format alike under [P]. *)
Theorem index_name_resolution `{PyRuntime} `{BulkHelper}
    (self other : OlympusCollector) (ts1 ts2 : Timestamp) :
  (cls other = cls self → timestamp other = timestamp self →
   get_index_name other = get_index_name self)
  ∧ (∀ s, index_name (cls self) = Some s → s ≠ "" → __get_raw_index_name self = s)
  ∧ (index_name (cls self) = None ∨ index_name (cls self) = Some "" →
     __get_raw_index_name self = lower (name (cls self)))
  ∧ (index_date_pattern (cls self) = None →
     get_index_name (at_time self ts1) = __get_raw_index_name self
     ∧ get_index_name (at_time self ts1) = get_index_name (at_time self ts2))
  ∧ (∀ P, index_date_pattern (cls self) = Some P →
     get_index_name (at_time self ts1) = __get_raw_index_name self +:+ "-" +:+ strftime ts1 P
     ∧ (strftime ts1 P = strftime ts2 P →
        get_index_name (at_time self ts1) = get_index_name (at_time self ts2))
     ∧ (strftime ts1 P ≠ strftime ts2 P →
        get_index_name (at_time self ts1) ≠ get_index_name (at_time self ts2))).
Proof.
  split; [|split; [|split; [|split]]].
  - intros Hc Ht. unfold get_index_name, __get_raw_index_name. by rewrite Hc, Ht.
  - intros s Hs Hne. unfold __get_raw_index_name. rewrite Hs. by destruct s.
  - intros [Hs|Hs]; unfold __get_raw_index_name; by rewrite Hs.
  - intros Hp. by rewrite !get_index_name_no_pattern.
  - intros P HP.
    rewrite !(get_index_name_pattern _ P) by done. simpl.
    split; [done|]. split.
    + by intros ->.
    + intros Hne Heq. apply Hne.
      apply string_app_inj_l in Heq. by apply (string_app_inj_l "-") in Heq.
Qed.

(** The monthly index of [app.collectors.Users]: one name within March
    2024, another in April; and the raw name of a class with an
    [index_name] of its own. *)
Lemma index_name_resolution_witness :
  @get_index_name Sample.runtime chunked_helper Sample.users5 = "app.users-2024.03"
  ∧ @get_index_name Sample.runtime chunked_helper (at_time Sample.users5 Sample.march)
    = @get_index_name Sample.runtime chunked_helper (at_time Sample.users5 Sample.late_march)
  ∧ @get_index_name Sample.runtime chunked_helper (at_time Sample.users5 Sample.march)
    ≠ @get_index_name Sample.runtime chunked_helper (at_time Sample.users5 Sample.april)
  ∧ @__get_raw_index_name Sample.runtime chunked_helper Sample.mixed = "mixed".
Proof.
  destruct (@index_name_resolution Sample.runtime chunked_helper
              Sample.users5 Sample.users5 Sample.march Sample.late_march)
    as (_ & _ & _ & _ & Hsame).
  destruct (Hsame "%Y.%m" eq_refl) as (Hname & Heq & _).
  destruct (@index_name_resolution Sample.runtime chunked_helper
              Sample.users5 Sample.users5 Sample.march Sample.april)
    as (_ & _ & _ & _ & Hdiff).
  destruct (Hdiff "%Y.%m" eq_refl) as (_ & _ & Hne).
  destruct (@index_name_resolution Sample.runtime chunked_helper
              Sample.mixed Sample.mixed Sample.march Sample.march)
    as (_ & Hraw & _).
  split; [exact Hname|].
  split; [exact (Heq eq_refl)|].
  split; [apply Hne; discriminate|].
  apply Hraw; [reflexivity|discriminate].
Defined.

(** ** The normaliser *)

Section Normaliser.
Context `{PyRuntime} `{BulkHelper}.
Implicit Types (self : OlympusCollector) (r : Record).

Lemma add_defaults_index self r :
  add_defaults self r !! "_index"
    = Some (match r !! "_index" with
            | Some v => v
            | None => VStr (get_index_name self)
            end).
Proof.
  unfold add_defaults.
  destruct (r !! "_type") eqn:Et.
  - destruct (r !! "_index") eqn:Ei; [done|]. by rewrite lookup_insert_eq.
  - rewrite lookup_insert_ne by done.
    destruct (r !! "_index") eqn:Ei.
    + by rewrite lookup_insert_ne.
    + by rewrite lookup_insert_eq.
Qed.

Lemma add_defaults_type self r :
  add_defaults self r !! "_type"
    = Some (match r !! "_type" with
            | Some v => v
            | None => VStr "status"
            end).
Proof.
  unfold add_defaults.
  destruct (r !! "_type") eqn:Et.
  - destruct (r !! "_index") eqn:Ei; [done|]. by rewrite lookup_insert_ne.
  - rewrite lookup_insert_ne by done.
    destruct (r !! "_index") eqn:Ei.
    + by rewrite lookup_insert_eq.
    + rewrite lookup_insert_ne by done. by rewrite lookup_insert_eq.
Qed.

Lemma add_defaults_other self r k :
  k ≠ "_index" → k ≠ "_type" → add_defaults self r !! k = r !! k.
Proof.
  intros Hi Ht. unfold add_defaults.
  destruct (r !! "_type") eqn:Et.
  - destruct (r !! "_index") eqn:Ei; [done|]. by rewrite lookup_insert_ne.
  - rewrite lookup_insert_ne by done.
    destruct (r !! "_index") eqn:Ei.
    + by rewrite lookup_insert_ne.
    + by rewrite !lookup_insert_ne.
Qed.

(** A dictionary that has been through the loop body has both fields: going
    through it again leaves it as it is. *)
Lemma add_defaults_idemp self r :
  add_defaults self (add_defaults self r) = add_defaults self r.
Proof.
  pose proof (add_defaults_index self r) as Hi.
  pose proof (add_defaults_type self r) as Ht.
  set (r' := add_defaults self r) in *.
  unfold add_defaults at 1. by rewrite Ht, Hi.
Qed.

End Normaliser.

Section InPlace.
Context `{PyRuntime} `{BulkHelper}.
Implicit Types (self : OlympusCollector) (heap : gmap nat Record) (refs : list nat).

Lemma contents_after_update self heap ref refs :
  map (add_defaults self) (omap (fun r => alter (add_defaults self) ref heap !! r) refs)
    = map (add_defaults self) (omap (fun r => heap !! r) refs).
Proof.
  induction refs as [|r refs IH]; [done|]. simpl.
  rewrite lookup_alter. case_decide as Hr.
  - subst r. destruct (heap !! ref) as [x|]; simpl; [|exact IH].
    rewrite add_defaults_idemp. f_equal. exact IH.
  - destruct (heap !! r) as [x|]; simpl; [|exact IH]. f_equal. exact IH.
Qed.

(** Updating the dictionaries in place shows the consumer the same records
    as normalising a copy of each: a dictionary yielded twice is already
    normalised the second time. *)
Lemma collect_in_place_agrees self heap refs :
  Forall (fun ref => is_Some (heap !! ref)) refs →
  (__collect_in_place self heap refs).2
    = map (add_defaults self) (omap (fun ref => heap !! ref) refs).
Proof.
  revert heap. induction refs as [|ref refs IH]; intros heap Hrefs; [done|].
  apply Forall_cons in Hrefs as [[x Hx] Hrefs].
  cbn [__collect_in_place].
  destruct (__collect_in_place self (alter (add_defaults self) ref heap) refs)
    as [heap'' yielded] eqn:Erun.
  cbn [snd]. rewrite lookup_alter_eq, Hx.
  replace (omap (fun r => heap !! r) (ref :: refs))
    with (x :: omap (fun r => heap !! r) refs) by (simpl; by rewrite Hx).
  cbn [map fmap option_fmap option_map default]. f_equal.
  change yielded with (heap'', yielded).2. rewrite <- Erun.
  rewrite IH.
  - apply contents_after_update.
  - eapply Forall_impl; [exact Hrefs|]. intros r [y Hy]. simpl.
    rewrite lookup_alter. case_decide; [subst|]; rewrite Hy; by eexists.
Qed.

End InPlace.

(** C6. [__collect] yields as many records as [collect], in the same
    order; the record at each position keeps its ["_index"] if it had one
    and gets the index name otherwise, keeps its ["_type"] if it had one and
    gets ["status"] otherwise, and has every other field as before. *)
Theorem collect_adds_defaults `{PyRuntime} `{BulkHelper}
    (self : OlympusCollector) (records : list Record) :
  collect (cls self) = Some records →
  ∃ out, __collect self = Ok out
    ∧ length out = length records
    ∧ ∀ i r, records !! i = Some r →
        ∃ r', out !! i = Some r'
          ∧ r' !! "_index" = Some (match r !! "_index" with
                                   | Some v => v
                                   | None => VStr (get_index_name self)
                                   end)
          ∧ r' !! "_type" = Some (match r !! "_type" with
                                  | Some v => v
                                  | None => VStr "status"
                                  end)
          ∧ ∀ k, k ≠ "_index" → k ≠ "_type" → r' !! k = r !! k.
Proof.
  intros Hc. exists (map (add_defaults self) records).
  split; [|split].
  - unfold __collect. by rewrite Hc.
  - by rewrite length_map.
  - intros i r Hi. exists (add_defaults self r). split; [|split; [|split]].
    + by rewrite list_lookup_fmap, Hi.
    + apply add_defaults_index.
    + apply add_defaults_type.
    + intros k. apply add_defaults_other.
Qed.

(** The four actions of the class [Mixed]: the last one names its index and
    keeps it, the others get the index of the collector; all get the type
    ["status"]. *)
Lemma collect_adds_defaults_witness :
  collect (cls Sample.mixed) = Some [Sample.doc 1; Sample.remove; Sample.patch; Sample.put]
  ∧ ∃ out, @__collect Sample.runtime chunked_helper Sample.mixed = Ok out
      ∧ length out = 4
      ∧ (∃ r', out !! 0 = Some r'
           ∧ r' !! "_index" = Some (VStr "mixed")
           ∧ r' !! "_type" = Some (VStr "status")
           ∧ r' !! "id" = Some (VInt 1))
      ∧ (∃ r', out !! 3 = Some r'
           ∧ r' !! "_index" = Some (VStr "archive")
           ∧ r' !! "_type" = Some (VStr "status")
           ∧ r' !! "_id" = Some (VStr "9")).
Proof.
  split; [reflexivity|].
  destruct (@collect_adds_defaults Sample.runtime chunked_helper Sample.mixed _ eq_refl)
    as (out & Hout & Hlen & Hrec).
  exists out. split; [exact Hout|]. split; [exact Hlen|]. split.
  - destruct (Hrec 0 (Sample.doc 1) eq_refl) as (r' & Hr' & Hi & Ht & Hk).
    exists r'. split; [exact Hr'|]. split; [exact Hi|]. split; [exact Ht|].
    rewrite Hk; [reflexivity|discriminate|discriminate].
  - destruct (Hrec 3 Sample.put eq_refl) as (r' & Hr' & Hi & Ht & Hk).
    exists r'. split; [exact Hr'|]. split; [exact Hi|]. split; [exact Ht|].
    rewrite Hk; [reflexivity|discriminate|discriminate].
Defined.

(** ** Computations *)

Lemma bind_unfold {A B} (m : M A) (k : A → M B) :
  (m ≫= k) = match m with
             | (t, Raise e) => (t, Raise e)
             | (t, Ok a) => let (t', r) := k a in (t ++ t', r)
             end.
Proof. reflexivity. Qed.

Lemma bind_ok {A B} t (a : A) (k : A → M B) :
  ((t, Ok a) : M A) ≫= k = (t ++ (k a).1, (k a).2).
Proof. rewrite bind_unfold. by destruct (k a). Qed.

Lemma bind_ret_l {A B} (a : A) (k : A → M B) : ret a ≫= k = k a.
Proof. unfold ret. rewrite bind_ok. by destruct (k a). Qed.

Lemma bind_inv_ok {A B} (m : M A) (k : A → M B) t b :
  m ≫= k = (t, Ok b) →
  ∃ t1 a t2, m = (t1, Ok a) ∧ k a = (t2, Ok b) ∧ t = t1 ++ t2.
Proof.
  rewrite bind_unfold. destruct m as [t1 [a|e]]; [|done].
  destruct (k a) as [t2 r] eqn:Ek. intros [= <- ->]. by exists t1, a, t2.
Qed.

Lemma for_each_app {A S} (body : S → A → M S) xs ys st :
  for_each body (xs ++ ys) st = for_each body xs st ≫= for_each body ys.
Proof.
  revert st. induction xs as [|x xs IH]; intros st.
  - change (for_each body ys st = ret st ≫= for_each body ys).
    by rewrite bind_ret_l.
  - cbn [app for_each]. rewrite !bind_unfold.
    destruct (body st x) as [t [st'|e]]; [|done].
    rewrite IH, bind_unfold.
    destruct (for_each body xs st') as [t1 [st1|e1]]; [|done].
    destruct (for_each body ys st1) as [t2 r2]. by rewrite app_assoc.
Qed.

Lemma cb_calls_app t1 t2 : cb_calls (t1 ++ t2) = cb_calls t1 ++ cb_calls t2.
Proof. apply omap_app. Qed.

Lemma bulk_batches_app t1 t2 : bulk_batches (t1 ++ t2) = bulk_batches t1 ++ bulk_batches t2.
Proof. apply omap_app. Qed.

(** ** The dry run *)

Section FakePush.
Context `{PyRuntime} `{BulkHelper}.

Lemma fake_push_loop stats_cb items success :
  for_each (fake_push_body stats_cb) items success
    = (flat_map (fake_push_effects stats_cb) items, Ok (success + length items)).
Proof.
  revert success. induction items as [|item items IH]; intros success; simpl.
  - unfold ret. by rewrite Nat.add_0_r.
  - rewrite bind_unfold. unfold fake_push_body at 1.
    destruct stats_cb; simpl; rewrite IH; simpl;
      by rewrite Nat.add_succ_r.
Qed.

Lemma fake_push_effects_no_store_op stats_cb items :
  List.filter is_store_op (flat_map (fake_push_effects stats_cb) items) = [].
Proof. induction items as [|item items IH]; [done|]. by destruct stats_cb. Qed.

Lemma fake_push_effects_no_bulk stats_cb items :
  bulk_batches (flat_map (fake_push_effects stats_cb) items) = [].
Proof.
  induction items as [|item items IH]; [done|]. simpl.
  rewrite bulk_batches_app, IH. by destruct stats_cb.
Qed.

Lemma fake_push_effects_calls stats_cb items :
  cb_calls (flat_map (fake_push_effects stats_cb) items)
    = if stats_cb then map (fun item => (true, item)) items else [].
Proof.
  induction items as [|item items IH]; simpl.
  - by destruct stats_cb.
  - rewrite cb_calls_app, IH. by destruct stats_cb.
Qed.

End FakePush.

(** C4. When [collect] yields [N] records, the dry run returns [(N, [])],
    sends nothing to the store (no index or alias request, no bulk
    request), and calls the observer, when there is one, [N] times: once
    for each record as [__collect] yields it, in order, with [ok] true. *)
Theorem fake_push_counts_all `{PyRuntime} `{BulkHelper}
    (self : OlympusCollector) (stats_cb : bool) (records : list Record) (N : nat) :
  collect (cls self) = Some records →
  length records = N →
  ∃ t, fake_push self stats_cb = (t, Ok (N, []))
    ∧ List.filter is_store_op t = []
    ∧ bulk_batches t = []
    ∧ cb_calls t = (if stats_cb
                    then map (fun r => (true, add_defaults self r)) records
                    else [])
    ∧ (stats_cb = true → length (cb_calls t) = N).
Proof.
  intros Hc HN.
  exists (flat_map (fake_push_effects stats_cb) (map (add_defaults self) records)).
  assert (Hcalls : cb_calls (flat_map (fake_push_effects stats_cb)
                               (map (add_defaults self) records))
                   = if stats_cb then map (fun r => (true, add_defaults self r)) records
                     else []).
  { rewrite fake_push_effects_calls. destruct stats_cb; [|done]. by rewrite map_map. }
  split; [|split; [|split; [|split]]].
  - unfold fake_push, __collect. rewrite Hc. unfold lift.
    rewrite bind_ok. simpl. rewrite fake_push_loop, bind_ok. simpl.
    rewrite app_nil_r, length_map, HN. done.
  - apply fake_push_effects_no_store_op.
  - apply fake_push_effects_no_bulk.
  - done.
  - intros ->. rewrite Hcalls. by rewrite length_map.
Qed.

(** The dry run of [app.collectors.Users] over five documents. *)
Lemma fake_push_counts_all_witness :
  collect (cls Sample.users5)
    = Some [Sample.doc 1; Sample.doc 2; Sample.doc 3; Sample.doc 4; Sample.doc 5]
  ∧ ∃ t, @fake_push Sample.runtime chunked_helper Sample.users5 true = (t, Ok (5, []))
      ∧ List.filter is_store_op t = []
      ∧ map fst (cb_calls t) = [true; true; true; true; true].
Proof.
  split; [reflexivity|].
  destruct (@fake_push_counts_all Sample.runtime chunked_helper Sample.users5 true _ 5
              eq_refl eq_refl)
    as (t & Hrun & Hstore & _ & Hcalls & _).
  exists t. split; [exact Hrun|]. split; [exact Hstore|].
  rewrite Hcalls. reflexivity.
Defined.

(** ** The live push: one iteration *)

Lemma push_body_submit stats_cb st batch :
  push_body stats_cb st (Submit batch) = ([EsBulk batch], Ok st).
Proof. by destruct st. Qed.

Lemma push_body_yield stats_cb st ok item :
  push_body stats_cb st (Yield ok item)
    = match classify ok item with
      | Raise e => ([], Raise e)
      | Ok eff => (if stats_cb then [StatsCb eff item] else [], Ok (tally eff item st))
      end.
Proof.
  destruct st as [success fails]. unfold push_body, classify, tally, lift.
  destruct (item_delete_status item) as [ds|e]; [|done].
  rewrite bind_ok. cbn [fst snd app].
  destruct (item_update_status item) as [us|e]; [|done].
  rewrite bind_ok. cbn [fst snd app].
  destruct (negb ok && (eq_int ds 404 || eq_int us 404)) eqn:E.
  - by destruct stats_cb.
  - destruct ok, stats_cb; done.
Qed.

Lemma delete_status_absent item :
  item !! "delete" = None → item_delete_status item = Ok VNone.
Proof. unfold item_delete_status, dict_get. by intros ->. Qed.

Lemma update_status_absent item :
  item !! "update" = None → item_update_status item = Ok VNone.
Proof. unfold item_update_status, dict_get. by intros ->. Qed.

Lemma delete_status_dict item d :
  item !! "delete" = Some (VDict d) →
  item_delete_status item = Ok (dict_get d "status" VNone).
Proof. unfold item_delete_status, dict_get. by intros ->. Qed.

Lemma update_status_dict item d :
  item !! "update" = Some (VDict d) →
  item_update_status item = Ok (dict_get d "update" VNone).
Proof. unfold item_update_status, dict_get. by intros ->. Qed.

(** A delete reported with status 404 never ends up as a failure. *)
Lemma classify_delete_404 ok item d eff :
  item !! "delete" = Some (VDict d) →
  d !! "status" = Some (VInt 404) →
  classify ok item = Ok eff → eff = true.
Proof.
  intros Hi Hd. unfold classify. rewrite (delete_status_dict _ _ Hi).
  unfold dict_get at 1. rewrite Hd.
  destruct (item_update_status item) as [us|e]; [|done].
  destruct ok; simpl; congruence.
Qed.

(** An update is judged by the key ["update"] of its result, not by its
    ["status"]: a result without that key stays as the store flagged it. *)
Lemma classify_update_by_update_key ok item d :
  item !! "delete" = None →
  item !! "update" = Some (VDict d) →
  d !! "update" = None →
  classify ok item = Ok ok.
Proof.
  intros Hdel Hupd Hd. unfold classify.
  rewrite (delete_status_absent _ Hdel), (update_status_dict _ _ Hupd).
  unfold dict_get. rewrite Hd. simpl. rewrite andb_false_r. done.
Qed.

(** A raw ok is never turned into a failure. *)
Lemma classify_keeps_ok item eff : classify true item = Ok eff → eff = true.
Proof.
  unfold classify.
  destruct (item_delete_status item); [|done].
  destruct (item_update_status item); [|done].
  simpl. congruence.
Qed.

(** ** The live push: the whole loop *)

Lemma push_body_shift stats_cb st ev :
  push_body stats_cb st ev = shift st (push_body stats_cb (0, []) ev).
Proof.
  destruct st as [s f], ev as [batch|ok item].
  - rewrite !push_body_submit. unfold shift. simpl. by rewrite Nat.add_0_r, app_nil_r.
  - rewrite !push_body_yield. destruct (classify ok item) as [[]|e]; unfold shift, tally; simpl.
    + by rewrite Nat.add_1_r, app_nil_r.
    + by rewrite Nat.add_0_r.
    + done.
Qed.

Lemma push_loop_shift stats_cb evs st :
  for_each (push_body stats_cb) evs st
    = shift st (for_each (push_body stats_cb) evs (0, [])).
Proof.
  revert st. induction evs as [|ev evs IH]; intros [s f].
  - unfold shift. simpl. by rewrite Nat.add_0_r, app_nil_r.
  - cbn [for_each]. rewrite (push_body_shift _ (s, f)).
    destruct (push_body stats_cb (0, []) ev) as [t [[n0 f0]|e]]; [|done].
    unfold shift at 1. cbn [fst snd]. rewrite !bind_ok.
    rewrite (IH (s + n0, f ++ f0)), (IH (n0, f0)).
    destruct (for_each (push_body stats_cb) evs (0, [])) as [t' [[n1 f1]|e1]];
      unfold shift; simpl; [|done].
    by rewrite Nat.add_assoc, app_assoc.
Qed.

(** A completed loop over [pre], one more event, then [post]. *)
Lemma push_loop_split stats_cb pre ev post t n fails :
  for_each (push_body stats_cb) (pre ++ ev :: post) (0, []) = (t, Ok (n, fails)) →
  ∃ t1 n1 f1 te ne fe t2 n2 f2,
    for_each (push_body stats_cb) pre (0, []) = (t1, Ok (n1, f1))
    ∧ push_body stats_cb (0, []) ev = (te, Ok (ne, fe))
    ∧ for_each (push_body stats_cb) post (0, []) = (t2, Ok (n2, f2))
    ∧ t = t1 ++ te ++ t2
    ∧ n = n1 + ne + n2
    ∧ fails = f1 ++ fe ++ f2.
Proof.
  rewrite for_each_app. intros Hrun.
  apply bind_inv_ok in Hrun as (t1 & [n1 f1] & t' & Hpre & Hrest & ->).
  cbn [for_each] in Hrest.
  apply bind_inv_ok in Hrest as (te & [ne' fe'] & t2 & Hev & Hpost & ->).
  rewrite push_body_shift in Hev. rewrite push_loop_shift in Hpost.
  destruct (push_body stats_cb (0, []) ev) as [te0 [[ne fe]|e]]; [|done].
  destruct (for_each (push_body stats_cb) post (0, [])) as [t20 [[n2 f2]|e]]; [|done].
  unfold shift in *. simpl in *.
  injection Hev as <- <- <-. injection Hpost as <- <- <-.
  exists t1, n1, f1, te0, ne, fe, t20, n2, f2.
  repeat split; try done. by rewrite <- !app_assoc.
Qed.

Lemma push_loop_summary stats_cb evs t n fails :
  for_each (push_body stats_cb) evs (0, []) = (t, Ok (n, fails)) →
  ∃ z, judged z (outcomes evs)
    ∧ n = length (List.filter fst z)
    ∧ fails = map snd (List.filter (fun e => negb e.1) z)
    ∧ cb_calls t = (if stats_cb then z else [])
    ∧ bulk_batches t = submitted evs.
Proof.
  revert t n fails. induction evs as [|ev evs IH]; intros t n fails Hrun.
  - injection Hrun as <- <- <-. exists []. repeat split; try done.
    + constructor.
    + by destruct stats_cb.
  - cbn [for_each] in Hrun.
    apply bind_inv_ok in Hrun as (te & st1 & t' & Hev & Hrest & ->).
    rewrite push_loop_shift in Hrest.
    destruct (for_each (push_body stats_cb) evs (0, [])) as [t0 [[n' f']|e]] eqn:Erest;
      [|done].
    unfold shift in Hrest. simpl in Hrest. injection Hrest as <- <- <-.
    destruct (IH _ _ _ eq_refl) as (z & Hz & -> & -> & Hcalls & Hbulk).
    destruct ev as [batch|ok item].
    + rewrite push_body_submit in Hev. injection Hev as <- <-.
      exists z. simpl. repeat split; try done.
      by rewrite Hbulk.
    + rewrite push_body_yield in Hev.
      destruct (classify ok item) as [eff|e] eqn:Ecl; [|done].
      injection Hev as <- <-.
      exists ((eff, item) :: z). split; [|split; [|split; [|split]]].
      * simpl. constructor; [done|exact Hz].
      * destruct eff; simpl; done.
      * destruct eff; simpl; done.
      * rewrite cb_calls_app, Hcalls. by destruct stats_cb.
      * rewrite bulk_batches_app, Hbulk. by destruct stats_cb.
Qed.

Lemma judged_items z outs : judged z outs → map snd z = map snd outs.
Proof. induction 1 as [|e o z outs [He _] _ IH]; simpl; congruence. Qed.

Lemma judged_length z outs : judged z outs → length z = length outs.
Proof. apply Forall2_length. Qed.

Lemma judged_elem z outs e :
  judged z outs → e ∈ z → ∃ o, o ∈ outs ∧ e.2 = o.2 ∧ classify o.1 o.2 = Ok e.1.
Proof.
  induction 1 as [|e' o z outs [He Hcl] _ IH]; intros Hin.
  - by apply elem_of_nil in Hin.
  - apply elem_of_cons in Hin as [->|Hin].
    + exists o. split; [left|done].
    + destruct (IH Hin) as (o' & Ho' & Hrest). exists o'. split; [by right|done].
Qed.

Lemma filter_partition_length {A} (p : A → bool) (l : list A) :
  length (List.filter p l) + length (List.filter (fun x => negb (p x)) l) = length l.
Proof.
  induction l as [|x l IH]; [done|]. simpl. destruct (p x); simpl; lia.
Qed.

(** Every item of the failure list was left with a false flag. *)
Lemma fails_judged_false stats_cb evs t n fails item :
  for_each (push_body stats_cb) evs (0, []) = (t, Ok (n, fails)) →
  item ∈ fails → ∃ ok, classify ok item = Ok false.
Proof.
  intros Hrun Hin.
  destruct (push_loop_summary _ _ _ _ _ Hrun) as (z & Hz & _ & -> & _).
  apply list_elem_of_In, in_map_iff in Hin as ([eff x] & Hx & Hin). simpl in Hx. subst x.
  apply filter_In in Hin as [Hin Heff]. simpl in Heff.
  apply negb_true_iff in Heff. subst eff.
  apply list_elem_of_In in Hin.
  destruct (judged_elem _ _ _ Hz Hin) as ([ok x] & _ & Hx & Hcl). simpl in *. subst x.
  by exists ok.
Qed.

(** ** The live push: from [push] to its loop *)

Section Push.
Context `{PyRuntime} `{BulkHelper}.

Lemma create_index_run self : create_index self = (create_index_effects self, Ok tt).
Proof.
  unfold create_index, create_index_effects.
  by destruct (truthy (index_date_pattern (cls self)) && truthy (alias_suffix (cls self))).
Qed.

Lemma create_index_no_calls self :
  cb_calls (create_index_effects self) = [] ∧ bulk_batches (create_index_effects self) = [].
Proof.
  unfold create_index_effects.
  by destruct (truthy (index_date_pattern (cls self)) && truthy (alias_suffix (cls self))).
Qed.

Lemma push_run self stats_cb actions events final :
  __collect self = Ok actions →
  streaming_bulk (es self) actions (chunk_size (cls self)) = (events, final) →
  push self stats_cb
    = shift_trace (create_index_effects self)
        (for_each (push_body stats_cb) events (0, []) ≫= fun st =>
         match final with Some e => raise e | None => ret st end).
Proof.
  intros Hc Hs. unfold push. rewrite create_index_run, bind_ok.
  rewrite Hc. unfold lift. rewrite bind_ok. rewrite Hs. simpl. reflexivity.
Qed.

(** A push that returns went through its loop to the end. *)
Lemma push_completed self stats_cb actions events final t n fails :
  __collect self = Ok actions →
  streaming_bulk (es self) actions (chunk_size (cls self)) = (events, final) →
  push self stats_cb = (t, Ok (n, fails)) →
  ∃ t', for_each (push_body stats_cb) events (0, []) = (t', Ok (n, fails))
    ∧ t = create_index_effects self ++ t'
    ∧ cb_calls t = cb_calls t'
    ∧ bulk_batches t = bulk_batches t'.
Proof.
  intros Hc Hs. rewrite (push_run _ _ _ _ _ Hc Hs).
  destruct (for_each (push_body stats_cb) events (0, [])) as [t' [st|e]]; [|done].
  rewrite bind_ok. destruct final as [e|]; [done|]. simpl.
  rewrite app_nil_r. intros [= <- ->]. exists t'. split; [done|]. split; [done|].
  by destruct (truthy (index_date_pattern (cls self)) && truthy (alias_suffix (cls self))).
Qed.

End Push.

(** ** The live push returns *)

Lemma classify_readable ok item : readable item → ∃ eff, classify ok item = Ok eff.
Proof.
  intros [Hdel Hupd]. unfold classify, item_delete_status, item_update_status, dict_get.
  destruct (item !! "delete") as [v|] eqn:Ed.
  - destruct (Hdel v eq_refl) as [d ->]. simpl.
    destruct (item !! "update") as [u|] eqn:Eu.
    + destruct (Hupd u eq_refl) as [d' ->]. by eexists.
    + by eexists.
  - simpl. destruct (item !! "update") as [u|] eqn:Eu.
    + destruct (Hupd u eq_refl) as [d' ->]. by eexists.
    + by eexists.
Qed.

Lemma push_loop_returns stats_cb evs st :
  Forall readable (map snd (outcomes evs)) →
  ∃ t st', for_each (push_body stats_cb) evs st = (t, Ok st').
Proof.
  revert st. induction evs as [|ev evs IH]; intros st Hread.
  - by exists [], st.
  - cbn [for_each]. destruct ev as [batch|ok item].
    + rewrite push_body_submit, bind_ok.
      destruct (IH st Hread) as (t & st' & ->). by eexists _, _.
    + simpl in Hread. apply Forall_cons in Hread as [Hitem Hread].
      rewrite push_body_yield.
      destruct (classify_readable ok item Hitem) as [eff ->].
      rewrite bind_ok.
      destruct (IH (tally eff item st) Hread) as (t & st' & ->). by eexists _, _.
Qed.

(** When the helper does not fail and the statuses of every item it yields
    can be read, [push] returns. *)
Lemma push_returns `{PyRuntime} `{BulkHelper}
    (self : OlympusCollector) stats_cb actions events :
  __collect self = Ok actions →
  streaming_bulk (es self) actions (chunk_size (cls self)) = (events, None) →
  Forall readable (map snd (outcomes events)) →
  ∃ t n fails, push self stats_cb = (t, Ok (n, fails)).
Proof.
  intros Hc Hs Hread. rewrite (push_run _ _ _ _ _ Hc Hs).
  destruct (push_loop_returns stats_cb events (0, []) Hread) as (t & [n fails] & ->).
  rewrite bind_ok. unfold shift_trace. simpl. by eexists _, _, _.
Qed.

(** ** The live push: accounting *)

(** C9. A push that returns [(n, fails)] has given every outcome of the
    stream one flag: [n] counts the outcomes flagged true, [fails] holds the
    items of those flagged false, in stream order, so that [n] and the
    length of [fails] add up to the number of outcomes; a raw ok is never
    turned into a failure; and the observer, when there is one, was called
    once per outcome, in order, with that flag and the item. *)
Theorem push_partitions_outcomes `{PyRuntime} `{BulkHelper}
    (self : OlympusCollector) (stats_cb : bool) (actions : list Record)
    (events : list BulkEvent) (final : option exn)
    (t : list Effect) (n : nat) (fails : list Item) :
  __collect self = Ok actions →
  streaming_bulk (es self) actions (chunk_size (cls self)) = (events, final) →
  push self stats_cb = (t, Ok (n, fails)) →
  ∃ z : list (bool * Item),
    length z = length (outcomes events)
    ∧ map snd z = map snd (outcomes events)
    ∧ Forall2 (fun e o => o.1 = true → e.1 = true) z (outcomes events)
    ∧ n = length (List.filter fst z)
    ∧ fails = map snd (List.filter (fun e => negb e.1) z)
    ∧ n + length fails = length (outcomes events)
    ∧ cb_calls t = (if stats_cb then z else []).
Proof.
  intros Hc Hs Hpush.
  destruct (push_completed _ _ _ _ _ _ _ _ Hc Hs Hpush) as (t' & Hrun & _ & Hcalls & _).
  destruct (push_loop_summary _ _ _ _ _ Hrun) as (z & Hz & Hn & Hf & Hcb & _).
  exists z. split; [|split; [|split; [|split; [|split; [|split]]]]].
  - by apply judged_length.
  - by apply judged_items.
  - eapply Forall2_impl; [exact Hz|]. intros [eff x] [ok y] [_ Hcl]. simpl in *.
    intros ->. by apply classify_keeps_ok in Hcl.
  - done.
  - done.
  - rewrite Hn, Hf, length_map, filter_partition_length. by apply judged_length.
  - by rewrite Hcalls.
Qed.

(** The push of the class [Mixed]: four outcomes, two counted, two failed. *)
Lemma push_partitions_outcomes_witness :
  (@push Sample.runtime chunked_helper Sample.mixed true).2
    = Ok (2, [Sample.update_missing; Sample.conflict])
  ∧ ∃ z : list (bool * Item),
      length z = 4
      ∧ 2 = length (List.filter fst z)
      ∧ [Sample.update_missing; Sample.conflict]
          = map snd (List.filter (fun e => negb e.1) z)
      ∧ cb_calls (@push Sample.runtime chunked_helper Sample.mixed true).1 = z.
Proof.
  split; [vm_compute; reflexivity|].
  assert (Hc : @__collect Sample.runtime chunked_helper Sample.mixed
               = Ok Sample.mixed_actions) by reflexivity.
  assert (Hs : @streaming_bulk chunked_helper (es Sample.mixed) Sample.mixed_actions
                 (chunk_size (cls Sample.mixed)) = (Sample.mixed_events, None))
    by (vm_compute; reflexivity).
  assert (Hp : @push Sample.runtime chunked_helper Sample.mixed true
               = ((@push Sample.runtime chunked_helper Sample.mixed true).1,
                  Ok (2, [Sample.update_missing; Sample.conflict])))
    by (vm_compute; reflexivity).
  destruct (@push_partitions_outcomes Sample.runtime chunked_helper
              Sample.mixed true _ _ _ _ _ _ Hc Hs Hp)
    as (z & Hlen & _ & _ & Hn & Hf & _ & Hcalls).
  exists z. split; [exact Hlen|]. split; [exact Hn|]. split; [exact Hf|]. exact Hcalls.
Defined.

(** C2. A delete that the store reports as failed with status 404 counts
    as a success. At its turn in the loop, whatever the state, the observer
    gets [true], the success counter goes up by one and the failure list is
    left alone. In the result of a push it adds one to the count of what
    came before and after it, the failures are those before and after it,
    and the item is not among them. *)
Theorem push_delete_404_is_success `{PyRuntime} `{BulkHelper}
    (self : OlympusCollector) (stats_cb : bool) (item : Item) (d : gmap string Value) :
  item !! "delete" = Some (VDict d) →
  d !! "status" = Some (VInt 404) →
  item !! "update" = None →
  (∀ success fails,
     push_body stats_cb (success, fails) (Yield false item)
       = (if stats_cb then [StatsCb true item] else [], Ok (S success, fails)))
  ∧ (∀ actions pre post final t n fails,
       __collect self = Ok actions →
       streaming_bulk (es self) actions (chunk_size (cls self))
         = (pre ++ Yield false item :: post, final) →
       push self stats_cb = (t, Ok (n, fails)) →
       ∃ t1 n1 f1 t2 n2 f2,
         for_each (push_body stats_cb) pre (0, []) = (t1, Ok (n1, f1))
         ∧ for_each (push_body stats_cb) post (0, []) = (t2, Ok (n2, f2))
         ∧ cb_calls t
           = cb_calls t1 ++ (if stats_cb then [(true, item)] else []) ++ cb_calls t2
         ∧ n = n1 + 1 + n2
         ∧ fails = f1 ++ f2
         ∧ item ∉ fails).
Proof.
  intros Hi Hd Hu.
  assert (Ecl : classify false item = Ok true).
  { unfold classify. rewrite (delete_status_dict _ _ Hi), (update_status_absent _ Hu).
    unfold dict_get. by rewrite Hd. }
  split.
  { intros success fails. by rewrite push_body_yield, Ecl. }
  intros actions pre post final t n fails Hc Hs Hpush.
  destruct (push_completed _ _ _ _ _ _ _ _ Hc Hs Hpush) as (t' & Hrun & _ & Hcalls & _).
  assert (Hnotin : item ∉ fails).
  { intros Hin. destruct (fails_judged_false _ _ _ _ _ _ Hrun Hin) as [ok Hcl].
    by apply (classify_delete_404 _ _ _ _ Hi Hd) in Hcl. }
  destruct (push_loop_split _ _ _ _ _ _ _ Hrun)
    as (t1 & n1 & f1 & te & ne & fe & t2 & n2 & f2 & Hpre & Hev & Hpost & -> & -> & ->).
  rewrite push_body_yield, Ecl in Hev. injection Hev as <- <- <-.
  exists t1, n1, f1, t2, n2, f2. split; [done|]. split; [done|]. split; [|split].
  - rewrite Hcalls, !cb_calls_app. by destruct stats_cb.
  - done.
  - split; [done|]. exact Hnotin.
Qed.

(** In the push of the class [Mixed] the delete of the missing document 7
    is the second outcome: it is counted, and it is not in the failures. *)
Lemma push_delete_404_is_success_witness :
  Sample.delete_missing !! "delete"
    = Some (VDict {[ "_id" := VStr "7"; "status" := VInt 404 ]})
  ∧ (@push Sample.runtime chunked_helper Sample.mixed true).2
    = Ok (2, [Sample.update_missing; Sample.conflict])
  ∧ (Sample.delete_missing ∉ [Sample.update_missing; Sample.conflict])
  ∧ (cb_calls (@push Sample.runtime chunked_helper Sample.mixed true).1) !! 1
    = Some (true, Sample.delete_missing).
Proof.
  split; [reflexivity|]. split; [vm_compute; reflexivity|].
  assert (Hc : @__collect Sample.runtime chunked_helper Sample.mixed
               = Ok Sample.mixed_actions) by reflexivity.
  assert (Hs : @streaming_bulk chunked_helper (es Sample.mixed) Sample.mixed_actions
                 (chunk_size (cls Sample.mixed))
               = ([Submit Sample.mixed_actions; Yield true Sample.created]
                  ++ Yield false Sample.delete_missing
                  :: [Yield false Sample.update_missing; Yield false Sample.conflict],
                  None))
    by (vm_compute; reflexivity).
  assert (Hp : @push Sample.runtime chunked_helper Sample.mixed true
               = ((@push Sample.runtime chunked_helper Sample.mixed true).1,
                  Ok (2, [Sample.update_missing; Sample.conflict])))
    by (vm_compute; reflexivity).
  destruct (@push_delete_404_is_success Sample.runtime chunked_helper
              Sample.mixed true Sample.delete_missing
              {[ "_id" := VStr "7"; "status" := VInt 404 ]} eq_refl eq_refl eq_refl)
    as [_ Hpush].
  destruct (Hpush Sample.mixed_actions
              [Submit Sample.mixed_actions; Yield true Sample.created]
              [Yield false Sample.update_missing; Yield false Sample.conflict]
              None _ _ _ Hc Hs Hp)
    as (t1 & n1 & f1 & t2 & n2 & f2 & Hpre & _ & Hcalls & _ & _ & Hnotin).
  split; [exact Hnotin|].
  rewrite Hcalls. injection Hpre as <- _ _. reflexivity.
Defined.

(** C7. An index operation that the store reports as failed with status
    409 stays a failure. At its turn in the loop, whatever the state, the
    observer gets [false], the item is appended to the failure list and the
    success counter is left alone. In the result of a push the item stands
    in the failure list between the failures before it and those after it,
    and the count is that of what came before and after it. *)
Theorem push_index_409_is_failure `{PyRuntime} `{BulkHelper}
    (self : OlympusCollector) (stats_cb : bool) (item : Item) (d : gmap string Value) :
  item !! "index" = Some (VDict d) →
  d !! "status" = Some (VInt 409) →
  item !! "delete" = None →
  item !! "update" = None →
  (∀ success fails,
     push_body stats_cb (success, fails) (Yield false item)
       = (if stats_cb then [StatsCb false item] else [], Ok (success, fails ++ [item])))
  ∧ (∀ actions pre post final t n fails,
       __collect self = Ok actions →
       streaming_bulk (es self) actions (chunk_size (cls self))
         = (pre ++ Yield false item :: post, final) →
       push self stats_cb = (t, Ok (n, fails)) →
       ∃ t1 n1 f1 t2 n2 f2,
         for_each (push_body stats_cb) pre (0, []) = (t1, Ok (n1, f1))
         ∧ for_each (push_body stats_cb) post (0, []) = (t2, Ok (n2, f2))
         ∧ cb_calls t
           = cb_calls t1 ++ (if stats_cb then [(false, item)] else []) ++ cb_calls t2
         ∧ n = n1 + n2
         ∧ fails = f1 ++ item :: f2
         ∧ item ∈ fails).
Proof.
  intros _ _ Hdel Hupd.
  assert (Ecl : classify false item = Ok false).
  { unfold classify. by rewrite (delete_status_absent _ Hdel), (update_status_absent _ Hupd). }
  split.
  { intros success fails. by rewrite push_body_yield, Ecl. }
  intros actions pre post final t n fails Hc Hs Hpush.
  destruct (push_completed _ _ _ _ _ _ _ _ Hc Hs Hpush) as (t' & Hrun & _ & Hcalls & _).
  destruct (push_loop_split _ _ _ _ _ _ _ Hrun)
    as (t1 & n1 & f1 & te & ne & fe & t2 & n2 & f2 & Hpre & Hev & Hpost & -> & -> & ->).
  rewrite push_body_yield, Ecl in Hev. injection Hev as <- <- <-.
  exists t1, n1, f1, t2, n2, f2. split; [done|]. split; [done|]. split; [|split].
  - rewrite Hcalls, !cb_calls_app. by destruct stats_cb.
  - simpl. lia.
  - split; [done|]. apply elem_of_app. right. left.
Qed.

(** In the push of the class [Mixed] the conflicting index operation is the
    last outcome: it is the last of the failures and the observer gets
    [false] for it. *)
Lemma push_index_409_is_failure_witness :
  Sample.conflict !! "index"
    = Some (VDict {[ "_id" := VStr "9"; "status" := VInt 409 ]})
  ∧ (@push Sample.runtime chunked_helper Sample.mixed true).2
    = Ok (2, [Sample.update_missing; Sample.conflict])
  ∧ (∃ f1 f2, [Sample.update_missing; Sample.conflict] = f1 ++ Sample.conflict :: f2)
  ∧ (cb_calls (@push Sample.runtime chunked_helper Sample.mixed true).1) !! 3
    = Some (false, Sample.conflict).
Proof.
  split; [reflexivity|]. split; [vm_compute; reflexivity|].
  assert (Hc : @__collect Sample.runtime chunked_helper Sample.mixed
               = Ok Sample.mixed_actions) by reflexivity.
  assert (Hs : @streaming_bulk chunked_helper (es Sample.mixed) Sample.mixed_actions
                 (chunk_size (cls Sample.mixed))
               = ([Submit Sample.mixed_actions; Yield true Sample.created;
                   Yield false Sample.delete_missing; Yield false Sample.update_missing]
                  ++ Yield false Sample.conflict :: [],
                  None))
    by (vm_compute; reflexivity).
  assert (Hp : @push Sample.runtime chunked_helper Sample.mixed true
               = ((@push Sample.runtime chunked_helper Sample.mixed true).1,
                  Ok (2, [Sample.update_missing; Sample.conflict])))
    by (vm_compute; reflexivity).
  destruct (@push_index_409_is_failure Sample.runtime chunked_helper
              Sample.mixed true Sample.conflict
              {[ "_id" := VStr "9"; "status" := VInt 409 ]}
              eq_refl eq_refl eq_refl eq_refl)
    as [_ Hpush].
  destruct (Hpush Sample.mixed_actions
              [Submit Sample.mixed_actions; Yield true Sample.created;
               Yield false Sample.delete_missing; Yield false Sample.update_missing]
              [] None _ _ _ Hc Hs Hp)
    as (t1 & n1 & f1 & t2 & n2 & f2 & Hpre & _ & Hcalls & _ & Hf & _).
  split; [by exists f1, f2|].
  rewrite Hcalls. injection Hpre as <- _ _. reflexivity.
Defined.

(** C1. Evaluation at the failing input: an update of a missing document,
    reported by the store as failed with status 404, is not turned into a
    success. The status read for it is [None]; the observer gets [false],
    the counter stays at 0 and the item is returned as a failure. *)
Theorem push_update_404_reported_as_failure :
  Sample.update_missing !! "update"
    = Some (VDict {[ "_id" := VStr "8"; "status" := VInt 404 ]})
  ∧ item_update_status Sample.update_missing = Ok VNone
  ∧ push_body true (0, []) (Yield false Sample.update_missing)
    = ([StatsCb false Sample.update_missing], Ok (0, [Sample.update_missing]))
  ∧ (@push Sample.runtime chunked_helper Sample.patcher true).2
    = Ok (0, [Sample.update_missing])
  ∧ cb_calls (@push Sample.runtime chunked_helper Sample.patcher true).1
    = [(false, Sample.update_missing)].
Proof. repeat split; vm_compute; reflexivity. Qed.

(** ** The live push over the batching helper *)

Lemma classify_accepted o : accepted o → classify o.1 o.2 = Ok true.
Proof.
  destruct o as [ok item]. intros [Hok (op & d & Hitem)]. simpl in *. subst.
  unfold classify, item_delete_status, item_update_status, dict_get.
  rewrite !lookup_singleton. by repeat case_decide.
Qed.

Lemma accepted_loop stats_cb outs st :
  Forall accepted outs →
  for_each (push_body stats_cb) (map (fun o => Yield o.1 o.2) outs) st
    = (if stats_cb then map (fun o => StatsCb true o.2) outs else [],
       Ok (st.1 + length outs, st.2)).
Proof.
  intros Hacc. revert st. induction Hacc as [|o outs Ho _ IH]; intros [s f].
  - simpl. unfold ret. rewrite Nat.add_0_r. by destruct stats_cb.
  - cbn [map for_each]. rewrite push_body_yield, (classify_accepted _ Ho).
    rewrite bind_ok. unfold tally. cbn [fst snd]. rewrite IH. cbn [fst snd length].
    rewrite Nat.add_succ_r. by destruct stats_cb.
Qed.

(** Over a store that accepts everything, every batch is sent, in order,
    and every action is counted. *)
Lemma chunked_loop stats_cb (store : Store) chunks st :
  accepts_all store →
  ∃ t, for_each (push_body stats_cb)
         (flat_map (fun batch => Submit batch :: map (fun o => Yield o.1 o.2) (store batch))
                   chunks) st
       = (t, Ok (st.1 + length (concat chunks), st.2))
    ∧ bulk_batches t = chunks
    ∧ cb_calls t = (if stats_cb
                    then map (fun o => (true, o.2)) (flat_map store chunks)
                    else []).
Proof.
  intros Hstore. revert st. induction chunks as [|batch chunks IH]; intros [s f].
  - exists []. simpl. unfold ret. rewrite Nat.add_0_r. by destruct stats_cb.
  - destruct (Hstore batch) as [Hlen Hacc].
    destruct (IH (s + length batch, f)) as (t' & Hrun & Hbulk & Hcalls).
    exists ([EsBulk batch] ++ (if stats_cb then map (fun o => StatsCb true o.2) (store batch)
                               else []) ++ t').
    assert (Hb : bulk_batches (if stats_cb then map (fun o => StatsCb true o.2) (store batch)
                               else []) = []).
    { destruct stats_cb; [|done]. clear.
      induction (store batch) as [|o outs IHo]; [done|]. exact IHo. }
    assert (Hcb : cb_calls (if stats_cb then map (fun o => StatsCb true o.2) (store batch)
                            else [])
                  = if stats_cb then map (fun o => (true, o.2)) (store batch) else []).
    { destruct stats_cb; [|done]. clear.
      induction (store batch) as [|o outs IHo]; [done|]. simpl. by rewrite <- IHo. }
    split; [|split].
    + cbn [flat_map]. rewrite <- app_comm_cons. cbn [for_each].
      rewrite push_body_submit, bind_ok. rewrite for_each_app.
      rewrite (accepted_loop _ _ _ Hacc), bind_ok. cbn [fst snd] in *.
      rewrite Hlen, Hrun. cbn [fst snd concat]. rewrite length_app, Nat.add_assoc.
      done.
    + rewrite !bulk_batches_app, Hb, Hbulk. done.
    + rewrite !cb_calls_app, Hcb, Hcalls. destruct stats_cb; [|done].
      cbn [flat_map]. by rewrite map_app.
Qed.

(** The batches hold the actions, in order, and none is larger than
    [chunk_size]. *)
Lemma chunk_actions_concat chunk_size cur actions :
  concat (chunk_actions chunk_size cur actions) = cur ++ actions.
Proof.
  revert cur. induction actions as [|a rest IH]; intros cur.
  - destruct cur; simpl; by rewrite ?app_nil_r.
  - cbn [chunk_actions]. destruct cur as [|c cur]; [by rewrite IH|].
    destruct (Z.of_nat (length (c :: cur)) =? chunk_size)%Z.
    + cbn [concat]. by rewrite IH.
    + rewrite IH. by rewrite <- app_assoc.
Qed.

Lemma chunk_actions_bounded chunk_size cur actions :
  (1 ≤ chunk_size)%Z →
  (Z.of_nat (length cur) ≤ chunk_size)%Z →
  Forall (fun batch => (Z.of_nat (length batch) ≤ chunk_size)%Z)
         (chunk_actions chunk_size cur actions).
Proof.
  intros Hpos. revert cur. induction actions as [|a rest IH]; intros cur Hcur.
  - destruct cur; [constructor|]. by repeat constructor.
  - cbn [chunk_actions]. destruct cur as [|c cur].
    + apply IH. simpl. lia.
    + destruct (Z.of_nat (length (c :: cur)) =? chunk_size)%Z eqn:E.
      * constructor; [done|]. apply IH. simpl. lia.
      * apply IH. apply Z.eqb_neq in E. rewrite length_app. simpl in *. lia.
Qed.

Lemma accepting_store_accepts_all : accepts_all Sample.accepting_store.
Proof.
  intros batch. unfold Sample.accepting_store. split; [by rewrite length_map|].
  induction batch as [|a batch IH]; constructor; [|exact IH].
  split; [done|]. by eexists _, _.
Qed.

(** C3. With [chunk_size] 2, five records and a store that accepts every
    action, the push over the batching helper sends three bulk requests,
    holding in order the first two, the next two and the last of the
    normalised records, and returns [(5, [])]; the observer, when there is
    one, is called five times with [true]. *)
Theorem push_five_records_chunk_two `{PyRuntime}
    (self : @OlympusCollector _ chunked_helper) (stats_cb : bool)
    (r1 r2 r3 r4 r5 : Record) :
  chunk_size (cls self) = 2%Z →
  collect (cls self) = Some [r1; r2; r3; r4; r5] →
  accepts_all (es self) →
  ∃ t, push self stats_cb = (t, Ok (5, []))
    ∧ bulk_batches t
      = [[add_defaults self r1; add_defaults self r2];
         [add_defaults self r3; add_defaults self r4];
         [add_defaults self r5]]
    ∧ map length (bulk_batches t) = [2; 2; 1]
    ∧ (stats_cb = true → map fst (cb_calls t) = [true; true; true; true; true]).
Proof.
  intros Hsize Hrecs Hstore.
  set (chunks := [[add_defaults self r1; add_defaults self r2];
                  [add_defaults self r3; add_defaults self r4];
                  [add_defaults self r5]]).
  destruct (chunked_loop stats_cb (es self) chunks (0, []) Hstore)
    as (t & Hrun & Hbulk & Hcalls).
  exists (create_index_effects self ++ t).
  assert (Hc : __collect self = Ok (map (add_defaults self) [r1; r2; r3; r4; r5])).
  { unfold __collect. by rewrite Hrecs. }
  assert (Hpush : push self stats_cb = (create_index_effects self ++ t, Ok (5, []))).
  { rewrite (push_run self stats_cb _
               (flat_map (fun batch => Submit batch
                                       :: map (fun o => Yield o.1 o.2) (es self batch))
                         chunks) None Hc).
    - rewrite Hrun, bind_ok. unfold shift_trace, ret. cbn [fst snd].
      by rewrite app_nil_r.
    - rewrite Hsize. reflexivity. }
  destruct (create_index_no_calls self) as [Hcc Hcb].
  split; [done|]. split; [|split].
  - by rewrite bulk_batches_app, Hcb, Hbulk.
  - by rewrite bulk_batches_app, Hcb, Hbulk.
  - intros ->. rewrite cb_calls_app, Hcc, Hcalls. simpl.
    rewrite map_map. simpl.
    destruct (Hstore [add_defaults self r1; add_defaults self r2]) as [L1 _].
    destruct (Hstore [add_defaults self r3; add_defaults self r4]) as [L2 _].
    destruct (Hstore [add_defaults self r5]) as [L3 _].
    rewrite app_nil_r, !map_app.
    destruct (es self [add_defaults self r1; add_defaults self r2]) as [|? [|? [|]]];
      try done.
    destruct (es self [add_defaults self r3; add_defaults self r4]) as [|? [|? [|]]];
      try done.
    destruct (es self [add_defaults self r5]) as [|? [|]]; done.
Qed.

(** The push of [app.collectors.Users] over five documents. *)
Lemma push_five_records_chunk_two_witness :
  chunk_size (cls Sample.users5) = 2%Z
  ∧ collect (cls Sample.users5)
    = Some [Sample.doc 1; Sample.doc 2; Sample.doc 3; Sample.doc 4; Sample.doc 5]
  ∧ ∃ t, @push Sample.runtime chunked_helper Sample.users5 true = (t, Ok (5, []))
      ∧ map length (bulk_batches t) = [2; 2; 1]
      ∧ map fst (cb_calls t) = [true; true; true; true; true].
Proof.
  split; [reflexivity|]. split; [reflexivity|].
  destruct (@push_five_records_chunk_two Sample.runtime Sample.users5 true
              _ _ _ _ _ eq_refl eq_refl accepting_store_accepts_all)
    as (t & Hrun & _ & Hsizes & Hcalls).
  exists t. split; [exact Hrun|]. split; [exact Hsizes|]. exact (Hcalls eq_refl).
Defined.

(** * Further properties *)

(** ** Provisioning *)

(** X1. With a date pattern and an alias suffix, both non-empty,
    [create_index] sends three requests: it creates the index of the
    timestamp, removes the alias from every index, and binds the alias to
    the index it has just created. The alias is the raw name and the
    suffix: it is the same at every timestamp, only the index changes. *)
Theorem create_index_repoints_alias `{PyRuntime} `{BulkHelper}
    (self : OlympusCollector) (P s : string) (ts1 ts2 : Timestamp) :
  index_date_pattern (cls self) = Some P → P ≠ "" →
  alias_suffix (cls self) = Some s → s ≠ "" →
  create_index (at_time self ts1)
    = ([EsCreateIndex (__get_raw_index_name self +:+ "-" +:+ strftime ts1 P);
        EsDeleteAlias "_all" (__get_raw_index_name self +:+ s);
        EsPutAlias (__get_raw_index_name self +:+ "-" +:+ strftime ts1 P)
                   (__get_raw_index_name self +:+ s)],
       Ok tt)
  ∧ create_index (at_time self ts2)
    = ([EsCreateIndex (__get_raw_index_name self +:+ "-" +:+ strftime ts2 P);
        EsDeleteAlias "_all" (__get_raw_index_name self +:+ s);
        EsPutAlias (__get_raw_index_name self +:+ "-" +:+ strftime ts2 P)
                   (__get_raw_index_name self +:+ s)],
       Ok tt).
Proof.
  intros HP HPne Hs Hsne.
  assert (Hrun : ∀ ts, create_index (at_time self ts)
            = ([EsCreateIndex (__get_raw_index_name self +:+ "-" +:+ strftime ts P);
                EsDeleteAlias "_all" (__get_raw_index_name self +:+ s);
                EsPutAlias (__get_raw_index_name self +:+ "-" +:+ strftime ts P)
                           (__get_raw_index_name self +:+ s)],
               Ok tt)).
  { intros ts. rewrite create_index_run. unfold create_index_effects.
    rewrite (get_index_name_pattern (at_time self ts) P) by exact HP.
    rewrite raw_index_name_at_time. cbn [at_time cls timestamp].
    rewrite HP, Hs. destruct P; [done|]. destruct s; [done|]. reflexivity. }
  split; apply Hrun.
Qed.

(** The monthly index of [app.collectors.Users] in March and in April. *)
Lemma create_index_repoints_alias_witness :
  @create_index Sample.runtime chunked_helper (at_time Sample.users5 Sample.march)
    = ([EsCreateIndex "app.users-2024.03";
        EsDeleteAlias "_all" "app.users-latest";
        EsPutAlias "app.users-2024.03" "app.users-latest"], Ok tt)
  ∧ @create_index Sample.runtime chunked_helper (at_time Sample.users5 Sample.april)
    = ([EsCreateIndex "app.users-2024.04";
        EsDeleteAlias "_all" "app.users-latest";
        EsPutAlias "app.users-2024.04" "app.users-latest"], Ok tt).
Proof.
  apply (@create_index_repoints_alias Sample.runtime chunked_helper Sample.users5
           "%Y.%m" "-latest" Sample.march Sample.april);
    [reflexivity | discriminate | reflexivity | discriminate].
Defined.

(** X2. Without a date pattern or without an alias suffix, [None] or the
    empty string alike, [create_index] only creates the index: no alias is
    touched. An empty date pattern is still a pattern for the name of the
    index, which gets the dash and the timestamp formatted under it. *)
Theorem create_index_without_alias `{PyRuntime} `{BulkHelper} (self : OlympusCollector) :
  index_date_pattern (cls self) = None ∨ index_date_pattern (cls self) = Some ""
  ∨ alias_suffix (cls self) = None ∨ alias_suffix (cls self) = Some "" →
  create_index self = ([EsCreateIndex (get_index_name self)], Ok tt)
  ∧ (index_date_pattern (cls self) = Some "" →
     get_index_name self
       = __get_raw_index_name self +:+ "-" +:+ strftime (timestamp self) "").
Proof.
  intros Hcase. split.
  - rewrite create_index_run. unfold create_index_effects.
    destruct Hcase as [Hp|[Hp|[Hs|Hs]]]; rewrite ?Hp, ?Hs; simpl;
      by rewrite ?andb_false_r.
  - apply get_index_name_pattern.
Qed.

(** A class with an empty date pattern. *)
Lemma create_index_without_alias_witness :
  index_date_pattern (cls Cases.blank) = Some ""
  ∧ @create_index Sample.runtime chunked_helper Cases.blank
    = ([EsCreateIndex "blank-"], Ok tt).
Proof.
  split; [reflexivity|].
  exact (proj1 (@create_index_without_alias Sample.runtime chunked_helper Cases.blank
                  (or_intror (or_introl eq_refl)))).
Defined.

(** ** What a push does before and besides its loop *)

Section PushShape.
Context `{PyRuntime} `{BulkHelper}.

Lemma push_unfold self stats_cb :
  push self stats_cb
    = shift_trace (create_index_effects self)
        (match __collect self with
         | Raise e => ([], Raise e)
         | Ok actions =>
             let '(events, final) :=
               streaming_bulk (es self) actions (chunk_size (cls self)) in
             for_each (push_body stats_cb) events (0, []) ≫= fun st =>
             match final with Some e => raise e | None => ret st end
         end).
Proof.
  unfold push. rewrite create_index_run, bind_ok.
  destruct (__collect self) as [actions|e]; [|reflexivity].
  unfold lift. rewrite bind_ok. reflexivity.
Qed.


End PushShape.


(** X4. A collector whose class does not override [collect]: the dry run
    raises [NotImplementedError] and does nothing; the live push raises it
    too, but only once the index has been created and, if there is one, the
    alias bound to it. The observer is never called. *)
Theorem push_without_collect `{PyRuntime} `{BulkHelper}
    (self : OlympusCollector) (stats_cb : bool) :
  collect (cls self) = None →
  fake_push self stats_cb = ([], Raise NotImplementedError)
  ∧ push self stats_cb = (create_index_effects self, Raise NotImplementedError)
  ∧ cb_calls (push self stats_cb).1 = [].
Proof.
  intros Hc.
  assert (Hcollect : __collect self = Raise NotImplementedError).
  { unfold __collect. by rewrite Hc. }
  assert (Hpush : push self stats_cb = (create_index_effects self, Raise NotImplementedError)).
  { rewrite push_unfold, Hcollect. unfold shift_trace. cbn [fst snd]. by rewrite app_nil_r. }
  split; [|split].
  - unfold fake_push. by rewrite Hcollect.
  - exact Hpush.
  - rewrite Hpush. cbn [fst]. apply create_index_no_calls.
Qed.

(** A class that leaves [collect] to the base class, one index a year. *)
Lemma push_without_collect_witness :
  @fake_push Sample.runtime chunked_helper Cases.abstract true
    = ([], Raise NotImplementedError)
  ∧ @push Sample.runtime chunked_helper Cases.abstract true
    = ([EsCreateIndex "app.abstract-2024";
        EsDeleteAlias "_all" "app.abstract-latest";
        EsPutAlias "app.abstract-2024" "app.abstract-latest"],
       Raise NotImplementedError).
Proof.
  destruct (@push_without_collect Sample.runtime chunked_helper Cases.abstract true eq_refl)
    as (Hfake & Hpush & _).
  split; [exact Hfake | exact Hpush].
Defined.

(** ** Exceptions during the loop *)

(** X5. When the helper ends with an exception after yielding outcomes
    whose statuses can all be read, [push] raises that exception and returns
    no tally; by then every batch of the stream has been sent and the
    observer, when there is one, has been called once for every outcome
    yielded, in order. *)
Theorem push_helper_failure `{PyRuntime} `{BulkHelper}
    (self : OlympusCollector) (stats_cb : bool) (actions : list Record)
    (events : list BulkEvent) (e : exn) :
  __collect self = Ok actions →
  streaming_bulk (es self) actions (chunk_size (cls self)) = (events, Some e) →
  Forall readable (map snd (outcomes events)) →
  ∃ t, push self stats_cb = (t, Raise e)
    ∧ bulk_batches t = submitted events
    ∧ map snd (cb_calls t) = (if stats_cb then map snd (outcomes events) else [])
    ∧ Forall2 (fun c o => o.1 = true → c.1 = true)
              (cb_calls t) (if stats_cb then outcomes events else []).
Proof.
  intros Hc Hs Hread.
  destruct (push_loop_returns stats_cb events (0, []) Hread) as (t & [n fails] & Hrun).
  destruct (push_loop_summary _ _ _ _ _ Hrun) as (z & Hz & _ & _ & Hcalls & Hbulk).
  exists (create_index_effects self ++ t).
  destruct (create_index_no_calls self) as [Hcc Hcb].
  split; [|split; [|split]].
  - rewrite (push_run _ _ _ _ _ Hc Hs), Hrun, bind_ok.
    unfold shift_trace, raise. cbn [fst snd]. by rewrite app_nil_r.
  - by rewrite bulk_batches_app, Hcb, Hbulk.
  - rewrite cb_calls_app, Hcc, Hcalls. destruct stats_cb; [|done].
    by apply judged_items.
  - rewrite cb_calls_app, Hcc, Hcalls. destruct stats_cb; [|constructor].
    eapply Forall2_impl; [exact Hz|]. intros [eff x] [ok y] [_ Hcl]. simpl in *.
    intros ->. by apply classify_keeps_ok in Hcl.
Qed.

(** The push of the class [Mixed] over a helper that loses the connection
    after the only batch: the four outcomes reach the observer, no tally is
    returned. *)
Lemma push_helper_failure_witness :
  ∃ t, @push Sample.runtime Cases.dropping_helper Cases.dropped true
       = (t, Raise (StoreError "connection lost"))
    ∧ map snd (cb_calls t)
      = [Sample.created; Sample.delete_missing; Sample.update_missing; Sample.conflict].
Proof.
  assert (Hs : @streaming_bulk Cases.dropping_helper (es Cases.dropped) Sample.mixed_actions
                 (chunk_size (cls Cases.dropped))
               = (Sample.mixed_events, Some (StoreError "connection lost")))
    by (vm_compute; reflexivity).
  assert (Hread : Forall readable (map snd (outcomes Sample.mixed_events))).
  { repeat constructor; intros v Hv; vm_compute in Hv;
      first [discriminate | (injection Hv as <-; by eexists)]. }
  destruct (@push_helper_failure Sample.runtime Cases.dropping_helper
              Cases.dropped true _ _ _ eq_refl Hs Hread)
    as (t & Hpush & _ & Hitems & _).
  exists t. split; [exact Hpush | exact Hitems].
Defined.

Lemma classify_unreadable ok item :
  unreadable item → classify ok item = Raise AttributeError.
Proof.
  unfold classify, item_delete_status, item_update_status, dict_get.
  intros [(v & Hv & Hnd)|(v & Hv & Hnd)]; rewrite Hv.
  - destruct v; try done. by destruct (Hnd d).
  - destruct (item !! "delete") as [w|]; simpl.
    + destruct w; try done. simpl. destruct v; try done. by destruct (Hnd d0).
    + destruct v; try done. by destruct (Hnd d).
Qed.

(** X6. The two statuses are read before the flag is looked at: an item
    that holds something else than a dictionary under ["delete"] or
    ["update"] ends the push with [AttributeError], even when the store
    flagged it ok. What was done for the outcomes before it stays done; the
    observer is not called for the item, and nothing after it is sent or
    looked at. *)
Theorem push_unreadable_item `{PyRuntime} `{BulkHelper}
    (self : OlympusCollector) (stats_cb : bool) (actions : list Record)
    (pre post : list BulkEvent) (final : option exn) (ok : bool) (item : Item) :
  __collect self = Ok actions →
  streaming_bulk (es self) actions (chunk_size (cls self))
    = (pre ++ Yield ok item :: post, final) →
  Forall readable (map snd (outcomes pre)) →
  unreadable item →
  ∃ t1 st,
    for_each (push_body stats_cb) pre (0, []) = (t1, Ok st)
    ∧ push self stats_cb = (create_index_effects self ++ t1, Raise AttributeError).
Proof.
  intros Hc Hs Hread Hitem.
  destruct (push_loop_returns stats_cb pre (0, []) Hread) as (t1 & st & Hpre).
  exists t1, st. split; [exact Hpre|].
  rewrite (push_run _ _ _ _ _ Hc Hs), for_each_app, Hpre, bind_ok.
  cbn [for_each]. rewrite push_body_yield, (classify_unreadable _ _ Hitem).
  unfold shift_trace. cbn [fst snd]. by rewrite !app_nil_r.
Qed.

(** A store that answers the second action with a string in place of the
    result: the first outcome reaches the observer, the push raises at the
    second, the last two are never looked at. *)
Lemma push_unreadable_item_witness :
  unreadable Cases.garbled_item
  ∧ (@push Sample.runtime chunked_helper Cases.garbled true).2 = Raise AttributeError
  ∧ cb_calls (@push Sample.runtime chunked_helper Cases.garbled true).1
    = [(true, Sample.created)].
Proof.
  assert (Hbad : unreadable Cases.garbled_item).
  { left. exists (VStr "gone"). split; [reflexivity|discriminate]. }
  split; [exact Hbad|].
  assert (Hs : @streaming_bulk chunked_helper (es Cases.garbled) Sample.mixed_actions
                 (chunk_size (cls Cases.garbled))
               = ([Submit Sample.mixed_actions; Yield true Sample.created]
                  ++ Yield true Cases.garbled_item
                  :: [Yield false Sample.update_missing; Yield false Sample.conflict],
                  None))
    by (vm_compute; reflexivity).
  assert (Hread : Forall readable
                    (map snd (outcomes [Submit Sample.mixed_actions;
                                        Yield true Sample.created]))).
  { repeat constructor; intros v Hv; vm_compute in Hv; discriminate. }
  destruct (@push_unreadable_item Sample.runtime chunked_helper Cases.garbled true
              _ _ _ _ _ _ eq_refl Hs Hread Hbad)
    as (t1 & st & Hpre & Hpush).
  rewrite Hpush. split; [reflexivity|].
  injection Hpre as <- _. reflexivity.
Defined.

(** ** What the tally can and cannot say *)

Lemma judged_oks z outs :
  judged z outs → (length (List.filter fst outs) ≤ length (List.filter fst z))%nat.
Proof.
  induction 1 as [|[eff x] [ok y] z outs [_ Hcl] _ IH]; [done|]. simpl in *.
  destruct ok.
  - apply classify_keeps_ok in Hcl as ->. simpl. lia.
  - destruct eff; simpl; lia.
Qed.

(** X7. The loop only ever turns a failure into a success: every item of
    the returned failure list was flagged as failed by the store, and the
    count is at least the number of outcomes the store flagged ok. *)
Theorem push_never_demotes `{PyRuntime} `{BulkHelper}
    (self : OlympusCollector) (stats_cb : bool) (actions : list Record)
    (events : list BulkEvent) (final : option exn)
    (t : list Effect) (n : nat) (fails : list Item) :
  __collect self = Ok actions →
  streaming_bulk (es self) actions (chunk_size (cls self)) = (events, final) →
  push self stats_cb = (t, Ok (n, fails)) →
  (∀ item, item ∈ fails → (false, item) ∈ outcomes events)
  ∧ (length (List.filter fst (outcomes events)) ≤ n)%nat
  ∧ (length fails ≤ length (List.filter (fun o => negb o.1) (outcomes events)))%nat.
Proof.
  intros Hc Hs Hpush.
  destruct (push_completed _ _ _ _ _ _ _ _ Hc Hs Hpush) as (t' & Hrun & _).
  destruct (push_loop_summary _ _ _ _ _ Hrun) as (z & Hz & -> & -> & _).
  pose proof (judged_oks _ _ Hz) as Hoks.
  pose proof (judged_length _ _ Hz) as Hlen.
  pose proof (filter_partition_length fst z) as Hpz.
  pose proof (filter_partition_length fst (outcomes events)) as Hpo.
  split; [|split].
  - intros item Hin.
    apply list_elem_of_In, in_map_iff in Hin as ([eff x] & Hx & Hin). simpl in Hx. subst x.
    apply filter_In in Hin as [Hin Heff]. simpl in Heff.
    apply negb_true_iff in Heff. subst eff.
    apply list_elem_of_In in Hin.
    destruct (judged_elem _ _ _ Hz Hin) as ([ok x] & Ho & Hx & Hcl). simpl in *. subst x.
    destruct ok; [by apply classify_keeps_ok in Hcl|exact Ho].
  - exact Hoks.
  - rewrite length_map. lia.
Qed.

(** In the push of the class [Mixed] one of the three failures flagged by
    the store is counted as a success, and both returned failures were
    flagged by the store. *)
Lemma push_never_demotes_witness :
  (false, Sample.update_missing) ∈ outcomes Sample.mixed_events
  ∧ (false, Sample.conflict) ∈ outcomes Sample.mixed_events
  ∧ (length (List.filter fst (outcomes Sample.mixed_events)) ≤ 2)%nat.
Proof.
  assert (Hs : @streaming_bulk chunked_helper (es Sample.mixed) Sample.mixed_actions
                 (chunk_size (cls Sample.mixed)) = (Sample.mixed_events, None))
    by (vm_compute; reflexivity).
  assert (Hp : @push Sample.runtime chunked_helper Sample.mixed true
               = ((@push Sample.runtime chunked_helper Sample.mixed true).1,
                  Ok (2, [Sample.update_missing; Sample.conflict])))
    by (vm_compute; reflexivity).
  destruct (@push_never_demotes Sample.runtime chunked_helper Sample.mixed true
              _ _ _ _ _ _ eq_refl Hs Hp)
    as (Hfails & Hn & _).
  split; [apply Hfails; left|]. split; [apply Hfails; right; left|exact Hn].
Defined.

(** X8. When the helper does not fail and every outcome it yields is
    flagged ok, with statuses that can be read, [push] returns the number of
    outcomes and an empty failure list, and the observer, when there is one,
    gets every outcome as the helper yielded it. *)
Theorem push_all_ok `{PyRuntime} `{BulkHelper}
    (self : OlympusCollector) (stats_cb : bool) (actions : list Record)
    (events : list BulkEvent) :
  __collect self = Ok actions →
  streaming_bulk (es self) actions (chunk_size (cls self)) = (events, None) →
  Forall (fun o => o.1 = true ∧ readable o.2) (outcomes events) →
  ∃ t, push self stats_cb = (t, Ok (length (outcomes events), []))
    ∧ cb_calls t = (if stats_cb then outcomes events else [])
    ∧ bulk_batches t = submitted events.
Proof.
  intros Hc Hs Hall.
  assert (Hread : Forall readable (map snd (outcomes events))).
  { apply Forall_fmap. eapply Forall_impl; [exact Hall|]. by intros o [_ Hr]. }
  destruct (push_returns self stats_cb _ _ Hc Hs Hread) as (t & n & fails & Hpush).
  destruct (push_completed _ _ _ _ _ _ _ _ Hc Hs Hpush) as (t' & Hrun & _ & Hcalls & Hbulk).
  destruct (push_loop_summary _ _ _ _ _ Hrun) as (z & Hz & Hn & Hf & Hcb & Hsub).
  assert (Hzo : z = outcomes events).
  { clear -Hz Hall. induction Hz as [|[eff x] [ok y] z outs [Hx Hcl] _ IH]; [done|].
    apply Forall_cons in Hall as [[Hok _] Hall]. simpl in *. subst.
    apply classify_keeps_ok in Hcl as ->. f_equal. by apply IH. }
  assert (Hoks : ∀ l : list (bool * Item), Forall (fun o => o.1 = true ∧ readable o.2) l →
                 List.filter fst l = l ∧ List.filter (fun e => negb e.1) l = []).
  { clear. induction 1 as [|[ok x] l [Hok _] _ [IH1 IH2]]; [done|]. simpl in *. subst.
    simpl. by rewrite IH1, IH2. }
  destruct (Hoks _ Hall) as [Hf1 Hf2].
  exists t. subst z. rewrite Hf1 in Hn. rewrite Hf2 in Hf. simpl in Hf. subst n fails.
  split; [exact Hpush|]. split; [by rewrite Hcalls|by rewrite Hbulk].
Qed.

(** The push of [app.collectors.Users] over five documents and a store that
    accepts them all. *)
Lemma push_all_ok_witness :
  ∃ t, @push Sample.runtime chunked_helper Sample.users5 true = (t, Ok (5, []))
    ∧ cb_calls t
      = [(true, Sample.created); (true, Sample.created); (true, Sample.created);
         (true, Sample.created); (true, Sample.created)].
Proof.
  set (actions := map (@add_defaults Sample.runtime chunked_helper Sample.users5)
                      [Sample.doc 1; Sample.doc 2; Sample.doc 3; Sample.doc 4; Sample.doc 5]).
  set (events := [Submit (take 2 actions); Yield true Sample.created;
                  Yield true Sample.created;
                  Submit (take 2 (drop 2 actions)); Yield true Sample.created;
                  Yield true Sample.created;
                  Submit (drop 4 actions); Yield true Sample.created]).
  assert (Hs : @streaming_bulk chunked_helper (es Sample.users5) actions
                 (chunk_size (cls Sample.users5)) = (events, None))
    by (vm_compute; reflexivity).
  assert (Hall : Forall (fun o => o.1 = true ∧ readable o.2) (outcomes events)).
  { repeat constructor; intros v Hv; vm_compute in Hv; discriminate. }
  destruct (@push_all_ok Sample.runtime chunked_helper Sample.users5 true
              actions events eq_refl Hs Hall)
    as (t & Hpush & Hcalls & _).
  exists t. split; [exact Hpush | exact Hcalls].
Defined.

(** ** The observer only observes *)




(** ** More on the normaliser *)

(** X10. Normalising is idempotent, and the records it leaves exactly as
    they are, key for key, are those that already carry both ["_type"] and
    ["_index"]; a stream that has been through [__collect] goes through it
    again unchanged. *)
Theorem normaliser_fixed_points `{PyRuntime} `{BulkHelper}
    (self : OlympusCollector) (r : Record) (records : list Record) :
  add_defaults self (add_defaults self r) = add_defaults self r
  ∧ (add_defaults self r = r ↔ is_Some (r !! "_type") ∧ is_Some (r !! "_index"))
  ∧ map (add_defaults self) (map (add_defaults self) records)
    = map (add_defaults self) records.
Proof.
  split; [apply add_defaults_idemp|]. split.
  - split.
    + intros Heq. split.
      * rewrite <- Heq, add_defaults_type. by eexists.
      * rewrite <- Heq, add_defaults_index. by eexists.
    + intros [[t Ht] [i Hi]]. unfold add_defaults. by rewrite Ht, Hi.
  - rewrite map_map. apply map_ext. intros x. apply add_defaults_idemp.
Qed.

Section InPlaceHeap.
Context `{PyRuntime} `{BulkHelper}.

Lemma collect_in_place_heap (self : OlympusCollector) (heap : gmap nat Record) refs ref :
  (__collect_in_place self heap refs).1 !! ref
    = if decide (ref ∈ refs) then add_defaults self <$> heap !! ref else heap !! ref.
Proof.
  revert heap. induction refs as [|r refs IH]; intros heap.
  - cbn [__collect_in_place fst].
    destruct (decide (ref ∈ [])) as [Hin|_]; [by apply elem_of_nil in Hin|done].
  - cbn [__collect_in_place].
    destruct (__collect_in_place self (alter (add_defaults self) r heap) refs)
      as [heap'' yielded] eqn:Erun.
    cbn [fst]. change heap'' with (heap'', yielded).1. rewrite <- Erun, IH.
    rewrite lookup_alter. destruct (decide (r = ref)) as [->|Hne].
    + rewrite (decide_True (P := ref ∈ ref :: refs)) by left.
      case_decide; [|done].
      destruct (heap !! ref) as [x|]; simpl; [|done]. by rewrite add_defaults_idemp.
    + case_decide as Hin.
      * rewrite decide_True; [done|by right].
      * rewrite decide_False; [done|].
        intros Hin'. apply elem_of_cons in Hin' as [->|Hin']; [done|by apply Hin].
Qed.

End InPlaceHeap.

(** X11. The loop of [__collect] updates the dictionaries in place. When
    [collect] yields dictionary objects, some of them more than once, the
    consumer reads at each yield the normalised contents the object had at
    the start; at the end every object that was yielded is normalised and
    every other object is as it was. *)
Theorem collect_in_place_result `{PyRuntime} `{BulkHelper}
    (self : OlympusCollector) (heap : gmap nat Record) (refs : list nat) :
  Forall (fun ref => is_Some (heap !! ref)) refs →
  (__collect_in_place self heap refs).2
    = map (add_defaults self) (omap (fun ref => heap !! ref) refs)
  ∧ length (__collect_in_place self heap refs).2 = length refs
  ∧ (∀ ref, ref ∈ refs →
       (__collect_in_place self heap refs).1 !! ref = add_defaults self <$> heap !! ref)
  ∧ (∀ ref, ref ∉ refs → (__collect_in_place self heap refs).1 !! ref = heap !! ref).
Proof.
  intros Hrefs. split; [by apply collect_in_place_agrees|]. split; [|split].
  - rewrite collect_in_place_agrees by done. rewrite length_map.
    clear -Hrefs. induction Hrefs as [|ref refs [x Hx] _ IH]; [done|].
    simpl. rewrite Hx. simpl. f_equal. exact IH.
  - intros ref Hin. rewrite collect_in_place_heap. by rewrite decide_True.
  - intros ref Hin. rewrite collect_in_place_heap. by rewrite decide_False.
Qed.

(** Two objects, the first yielded before and after the second. *)
Lemma collect_in_place_result_witness :
  (@__collect_in_place Sample.runtime chunked_helper Sample.mixed Cases.heap [0; 1; 0]).2
    = map (@add_defaults Sample.runtime chunked_helper Sample.mixed)
          [Sample.doc 1; Sample.put; Sample.doc 1]
  ∧ (@__collect_in_place Sample.runtime chunked_helper Sample.mixed Cases.heap [0; 1; 0]).1
      !! 0
    = Some (@add_defaults Sample.runtime chunked_helper Sample.mixed (Sample.doc 1)).
Proof.
  assert (Hrefs : Forall (fun ref => is_Some (Cases.heap !! ref)) [0; 1; 0]).
  { repeat constructor; by eexists. }
  destruct (@collect_in_place_result Sample.runtime chunked_helper Sample.mixed
              Cases.heap [0; 1; 0] Hrefs)
    as (Hyield & _ & Hin & _).
  split; [exact Hyield|]. apply (Hin 0). left.
Defined.

(** ** The client *)

(** X12. With both settings defined, [ElasticSearchClient.__init__] hands
    on the hosts of the caller, or the one URL of the settings when the
    caller gives none; a timeout and a [verify_certs] given by the caller,
    whatever their value, are kept, and default to 30 and to the setting;
    every other option is handed on as it is. Its results are arguments it
    would hand on unchanged. *)
Theorem es_client_defaults (settings : gmap string Value) (hosts : option (list Value))
    (kwargs : gmap string Value) (url verify : Value) :
  settings !! "OLYMPUS_ELASTICSEARCH_URL" = Some url →
  settings !! "OLYMPUS_ELASTICSEARCH_VERIFY_CERTS" = Some verify →
  ∃ kwargs',
    ElasticSearchClient.__init__ settings hosts kwargs = Ok (default [url] hosts, kwargs')
    ∧ kwargs' !! "timeout" = Some (default (VInt 30) (kwargs !! "timeout"))
    ∧ kwargs' !! "verify_certs" = Some (default verify (kwargs !! "verify_certs"))
    ∧ (∀ k, k ≠ "timeout" → k ≠ "verify_certs" → kwargs' !! k = kwargs !! k)
    ∧ ElasticSearchClient.__init__ settings (Some (default [url] hosts)) kwargs'
      = Ok (default [url] hosts, kwargs').
Proof.
  intros Hurl Hverify.
  set (kw1 := <["verify_certs" := dict_get kwargs "verify_certs" verify]> kwargs).
  set (kw2 := match kw1 !! "timeout" with
              | None => <["timeout" := VInt 30]> kw1
              | Some _ => kw1
              end).
  assert (Hrun : ∀ h, ElasticSearchClient.__init__ settings h kwargs
                      = Ok (default [url] h, kw2)).
  { intros h. unfold ElasticSearchClient.__init__, setting.
    rewrite Hverify. destruct h; simpl; [done|]. by rewrite Hurl. }
  assert (Ht1 : kw1 !! "timeout" = kwargs !! "timeout").
  { unfold kw1. by rewrite lookup_insert_ne. }
  assert (Htimeout : kw2 !! "timeout" = Some (default (VInt 30) (kwargs !! "timeout"))).
  { unfold kw2. rewrite Ht1. destruct (kwargs !! "timeout") as [v|] eqn:E; simpl.
    - by rewrite Ht1.
    - by rewrite lookup_insert_eq. }
  assert (Hv : kw2 !! "verify_certs" = Some (default verify (kwargs !! "verify_certs"))).
  { unfold kw2. destruct (kw1 !! "timeout"); [|rewrite lookup_insert_ne by done];
      unfold kw1, dict_get; rewrite lookup_insert_eq; by destruct (kwargs !! "verify_certs"). }
  exists kw2. split; [apply Hrun|]. split; [exact Htimeout|]. split; [exact Hv|]. split.
  - intros k Hk1 Hk2. unfold kw2.
    destruct (kw1 !! "timeout"); [|rewrite lookup_insert_ne by done];
      unfold kw1; by rewrite lookup_insert_ne.
  - unfold ElasticSearchClient.__init__, setting. rewrite Hverify. simpl.
    unfold dict_get. rewrite Hv. rewrite (insert_id kw2) by exact Hv.
    by rewrite Htimeout.
Qed.

(** A caller that gives no hosts and switches the verification off. *)
Lemma es_client_defaults_witness :
  ∃ kwargs',
    ElasticSearchClient.__init__ Cases.settings None {[ "verify_certs" := VBool false ]}
      = Ok ([VStr "http://localhost:9200"], kwargs')
    ∧ kwargs' !! "timeout" = Some (VInt 30)
    ∧ kwargs' !! "verify_certs" = Some (VBool false).
Proof.
  destruct (es_client_defaults Cases.settings None {[ "verify_certs" := VBool false ]}
              (VStr "http://localhost:9200") (VBool true) eq_refl eq_refl)
    as (kwargs' & Hrun & Htimeout & Hverify & _).
  exists kwargs'. split; [exact Hrun|]. split; [exact Htimeout | exact Hverify].
Defined.

(** X13. The setting [OLYMPUS_ELASTICSEARCH_VERIFY_CERTS] is read whether
    or not the caller gives [verify_certs]: when it is not defined the
    constructor raises [AttributeError] for every caller. The setting
    [OLYMPUS_ELASTICSEARCH_URL] is read only when the caller gives no
    hosts. *)
Theorem es_client_missing_setting (settings : gmap string Value)
    (hosts : list Value) (kwargs : gmap string Value) :
  (settings !! "OLYMPUS_ELASTICSEARCH_VERIFY_CERTS" = None →
   ElasticSearchClient.__init__ settings None kwargs = Raise AttributeError
   ∧ ElasticSearchClient.__init__ settings (Some hosts) kwargs = Raise AttributeError)
  ∧ (settings !! "OLYMPUS_ELASTICSEARCH_URL" = None →
     ElasticSearchClient.__init__ settings None kwargs = Raise AttributeError
     ∧ (is_Some (settings !! "OLYMPUS_ELASTICSEARCH_VERIFY_CERTS") →
        ∃ kwargs', ElasticSearchClient.__init__ settings (Some hosts) kwargs
                   = Ok (hosts, kwargs'))).
Proof.
  unfold ElasticSearchClient.__init__, setting. split.
  - intros ->. split; [|done]. by destruct (settings !! "OLYMPUS_ELASTICSEARCH_URL").
  - intros ->. split; [done|]. intros [v ->]. simpl. by eexists.
Qed.

(** Settings without the verification entry, and a caller that gives both
    the hosts and [verify_certs]. *)
Lemma es_client_missing_setting_witness :
  ElasticSearchClient.__init__ Cases.no_verify_setting (Some [VStr "http://es:9200"])
    {[ "verify_certs" := VBool true ]}
  = Raise AttributeError.
Proof.
  exact (proj2 (proj1 (es_client_missing_setting Cases.no_verify_setting
                         [VStr "http://es:9200"] {[ "verify_certs" := VBool true ]})
                 eq_refl)).
Defined.

(** ** More on names and the registry *)

Lemma first_split_dotless s : dotless (first (split "." s)) = true.
Proof.
  induction s as [|c s IH]; [done|]. simpl.
  destruct (Ascii.eqb c ".") eqn:Ec; [done|].
  destruct (split "." s) as [|h t]; simpl in *; by rewrite Ec.
Qed.

Lemma dotted_inj (a b x y : string) :
  dotless a = true → dotless b = true →
  a +:+ "." +:+ x = b +:+ "." +:+ y → a = b ∧ x = y.
Proof.
  revert b. induction a as [|c a IH]; intros [|c' b] Ha Hb Heq; simpl in *.
  - by simplify_eq.
  - by simplify_eq.
  - by simplify_eq.
  - injection Heq as Hc Heq. subst c'.
    apply andb_true_iff in Ha as [_ Ha]. apply andb_true_iff in Hb as [_ Hb].
    destruct (IH b Ha Hb Heq) as [-> ->]. done.
Qed.

(** X14. The qualified name tells the first component of the module path
    and the class name apart: two classes have the same qualified name
    exactly when they agree on both. The first component holds no dot, and
    is the whole module path when that holds none. *)
Theorem name_identifies_package_and_class (c1 c2 : CollectorClass) :
  (name c1 = name c2 ↔ namespace c1 = namespace c2 ∧ cls_name c1 = cls_name c2)
  ∧ dotless (namespace c1) = true
  ∧ (dotless (cls_module c1) = true → namespace c1 = cls_module c1).
Proof.
  split; [|split].
  - unfold name. split.
    + apply dotted_inj; apply first_split_dotless.
    + by intros [-> ->].
  - apply first_split_dotless.
  - unfold namespace. generalize (cls_module c1). clear.
    induction s as [|c s IH]; [done|]. simpl. intros Hd.
    apply andb_true_iff in Hd as [Hc Hd]. apply negb_true_iff in Hc. rewrite Hc.
    specialize (IH Hd). destruct (split "." s) as [|h t]; simpl in *; by rewrite IH.
Qed.

(** X15. Starting from the empty registry, the listing holds one entry for
    each class definition, in the order of the definitions, a class defined
    twice being listed twice; every entry pairs a class with its own
    namespace and qualified name, the name being the namespace, a dot and
    the class name. *)
Theorem registry_lists_definitions (cs : list CollectorClass) (c : CollectorClass) :
  collectors (define_all cs _collectors) = map (fun c => (namespace c, name c, c)) cs
  ∧ length (collectors (define_all cs _collectors)) = length cs
  ∧ collectors (define_all [c; c] _collectors)
    = [(namespace c, name c, c); (namespace c, name c, c)]
  ∧ Forall (fun e => e.1.1 = namespace e.2
                     ∧ e.1.2 = e.1.1 +:+ "." +:+ cls_name e.2
                     ∧ dotless e.1.1 = true)
           (collectors (define_all cs _collectors)).
Proof.
  unfold collectors. rewrite define_all_app. cbn [_collectors app].
  split; [done|]. split; [by rewrite length_map|]. split; [done|].
  apply Forall_fmap, Forall_forall. intros x _. cbn [fst snd].
  split; [done|]. split; [done|]. apply first_split_dotless.
Qed.

Lemma fake_push_counts_all_total `{PyRuntime} `{BulkHelper}
    (self : OlympusCollector) (stats_cb : bool) (records : list Record) :
  collect (cls self) = Some records →
  ∃ t, fake_push self stats_cb = (t, Ok (length records, [])).
Proof.
  intros Hc. unfold fake_push, __collect. rewrite Hc. unfold lift.
  rewrite bind_ok. cbn [fst snd]. rewrite fake_push_loop, bind_ok. cbn [fst snd].
  rewrite length_map. by eexists.
Qed.

(** ** The live push over the batching helper, in general *)

(** X16. Over the helper that batches by count and a store that accepts
    every action, with a [chunk_size] of at least 1: the push returns the
    number of records and no failure, as the dry run does; the batches it
    sends hold the normalised records, each once and in order, and none
    holds more than [chunk_size] of them. *)
Theorem push_batches_all_records `{PyRuntime}
    (self : @OlympusCollector _ chunked_helper) (stats_cb : bool) (records : list Record) :
  (1 ≤ chunk_size (cls self))%Z →
  collect (cls self) = Some records →
  accepts_all (es self) →
  ∃ t, push self stats_cb = (t, Ok (length records, []))
    ∧ concat (bulk_batches t) = map (add_defaults self) records
    ∧ Forall (fun batch => (Z.of_nat (length batch) ≤ chunk_size (cls self))%Z)
             (bulk_batches t)
    ∧ (fake_push self stats_cb).2 = Ok (length records, []).
Proof.
  intros Hsize Hrecs Hstore.
  set (actions := map (add_defaults self) records).
  set (chunks := chunk_actions (chunk_size (cls self)) [] actions).
  destruct (chunked_loop stats_cb (es self) chunks (0, []) Hstore)
    as (t & Hrun & Hbulk & _).
  assert (Hc : __collect self = Ok actions).
  { unfold __collect. by rewrite Hrecs. }
  assert (Hconcat : concat chunks = actions).
  { unfold chunks. by rewrite chunk_actions_concat. }
  exists (create_index_effects self ++ t).
  destruct (create_index_no_calls self) as [_ Hcb].
  split; [|split; [|split]].
  - rewrite (push_run self stats_cb actions
               (flat_map (fun batch => Submit batch
                                       :: map (fun o => Yield o.1 o.2) (es self batch))
                         chunks) None Hc); [|reflexivity].
    rewrite Hrun, bind_ok. unfold shift_trace, ret. cbn [fst snd].
    rewrite app_nil_r, Hconcat. unfold actions. by rewrite length_map.
  - by rewrite bulk_batches_app, Hcb, Hbulk.
  - rewrite bulk_batches_app, Hcb, Hbulk. cbn [app].
    apply chunk_actions_bounded; [exact Hsize|simpl; lia].
  - destruct (fake_push_counts_all_total self stats_cb records Hrecs) as [t' ->]. done.
Qed.

(** The push of [app.collectors.Users] over five documents, two at a time. *)
Lemma push_batches_all_records_witness :
  ∃ t, @push Sample.runtime chunked_helper Sample.users5 false = (t, Ok (5, []))
    ∧ concat (bulk_batches t)
      = map (@add_defaults Sample.runtime chunked_helper Sample.users5)
            [Sample.doc 1; Sample.doc 2; Sample.doc 3; Sample.doc 4; Sample.doc 5]
    ∧ Forall (fun batch => (Z.of_nat (length batch) ≤ 2)%Z) (bulk_batches t).
Proof.
  destruct (@push_batches_all_records Sample.runtime Sample.users5 false
              [Sample.doc 1; Sample.doc 2; Sample.doc 3; Sample.doc 4; Sample.doc 5]
              ltac:(vm_compute; discriminate) eq_refl accepting_store_accepts_all)
    as (t & Hpush & Hconcat & Hsizes & _).
  exists t. split; [exact Hpush|]. split; [exact Hconcat | exact Hsizes].
Defined.

(** ** The dry run, line by line *)

(** X17. The dry run goes through the records once, in order: for each
    one it calls the observer, when there is one, with [true] and the
    normalised record, and then writes the debug line for that record. It
    does nothing else. *)
Theorem fake_push_trace `{PyRuntime} `{BulkHelper}
    (self : OlympusCollector) (records : list Record) :
  collect (cls self) = Some records →
  fake_push self true
    = (flat_map (fun r => [StatsCb true (add_defaults self r);
                           LogDebug (add_defaults self r)]) records,
       Ok (length records, []))
  ∧ fake_push self false
    = (map (fun r => LogDebug (add_defaults self r)) records, Ok (length records, [])).
Proof.
  intros Hc. unfold fake_push, __collect. rewrite Hc. unfold lift.
  rewrite !bind_ok. cbn [fst snd]. rewrite !fake_push_loop, !bind_ok. cbn [fst snd app].
  rewrite !app_nil_r, length_map. split; f_equal.
  - clear. induction records as [|r records IH]; [done|]. simpl. by rewrite IH.
  - clear. induction records as [|r records IH]; [done|]. simpl. by rewrite IH.
Qed.

(** The dry run of the class [Patcher], which yields one action. *)
Lemma fake_push_trace_witness :
  @fake_push Sample.runtime chunked_helper Sample.patcher true
  = ([StatsCb true (@add_defaults Sample.runtime chunked_helper Sample.patcher Sample.patch);
      LogDebug (@add_defaults Sample.runtime chunked_helper Sample.patcher Sample.patch)],
     Ok (1, [])).
Proof.
  exact (proj1 (@fake_push_trace Sample.runtime chunked_helper Sample.patcher
                  [Sample.patch] eq_refl)).
Defined.
